(** * Storefront client: refund dialog, country selector, session context

    A shallow embedding of three React components,

    - [src/components/checkout/RefundDialog.tsx],
    - [src/components/header/mobile-menu/CountrySelector.tsx],
    - [src/contexts/AuthContext.tsx],

    together with the properties their specification states about them.

    Event handlers are functions from the rendered state snapshot to a run:
    the value returned or thrown, the next component state, and the ordered
    trace of observable effects (notifications, console output, calls to
    the hosted backend or the refund service, callbacks). *)

From Stdlib Require Import Bool List ZArith NArith Lia Ascii String.
From Stdlib Require Import Floats.SpecFloat.
Import ListNotations.

Set Implicit Arguments.

(** * JavaScript values and built-ins used by the components *)

Module Js.

(** ** Numbers: IEEE 754 binary64 *)

Definition number : Type := spec_float.

Definition NaN : number := S754_nan.
Definition zero : number := S754_zero false.

(** The double nearest to an integer. *)
Definition num (z : Z) : number := binary_normalize 53 1024 z 0 false.

Definition isNaN (x : number) : bool :=
  match x with S754_nan => true | _ => false end.

(** [x < y], [x <= y], [x > y]: false as soon as one side is NaN. *)
Definition lt (x y : number) : bool := SFltb x y.
Definition le (x y : number) : bool := SFleb x y.
Definition gt (x y : number) : bool := SFltb y x.

(** ** Strings

    Texts are byte strings, the UTF-8 form of the text: a substring of
    code points is a substring of bytes and conversely. *)

Definition str_empty (s : string) : bool :=
  match s with EmptyString => true | String _ _ => false end.

(** The UTF-8 bytes of a code point. *)
Definition utf8 (cp : N) : string :=
  let b (n : N) : ascii := ascii_of_N n in
  let tail (n : N) : N := (128 + n mod 64)%N in
  if (cp <? 128)%N then String (b cp) EmptyString
  else if (cp <? 2048)%N then
    String (b (192 + cp / 64)%N) (String (b (tail cp)) EmptyString)
  else if (cp <? 65536)%N then
    String (b (224 + cp / 4096)%N)
      (String (b (tail (cp / 64)%N)) (String (b (tail cp)) EmptyString))
  else
    String (b (240 + cp / 262144)%N)
      (String (b (tail (cp / 4096)%N))
         (String (b (tail (cp / 64)%N)) (String (b (tail cp)) EmptyString))).

(** The code points the language strips as white space: WhiteSpace (TAB,
    VT, FF, SP, NBSP, ZWNBSP and the category Zs) and LineTerminator (LF,
    CR, LS, PS). *)
Definition white_space_code_points : list N :=
  [9; 10; 11; 12; 13; 32; 160; 5760;
   8192; 8193; 8194; 8195; 8196; 8197; 8198; 8199; 8200; 8201; 8202;
   8232; 8233; 8239; 8287; 12288; 65279]%N.

(** [f] holds of the [n] numbers from [start] on. *)
Fixpoint all_from (f : N -> bool) (n : positive) (start : N) : bool :=
  match n with
  | xH => f start
  | xO p => all_from f p start && all_from f p (start + Npos p)
  | xI p =>
      f start && all_from f p (start + 1)
      && all_from f p (start + 1 + Npos p)
  end.

(** White space of one byte: U+0009 to U+000D, U+0020. *)
Definition is_space1 (a : ascii) : bool :=
  let n := N_of_ascii a in
  ((9 <=? n) && (n <=? 13) || (n =? 32))%N.

(** White space of two bytes: U+00A0 is C2 A0. *)
Definition is_space2 (a b : ascii) : bool :=
  ((N_of_ascii a =? 194) && (N_of_ascii b =? 160))%N.

(** White space of three bytes: U+1680 is E1 9A 80; U+2000 to U+200A,
    U+2028, U+2029 and U+202F are E2 80 followed by 80 to 8A, A8, A9, AF;
    U+205F is E2 81 9F; U+3000 is E3 80 80; U+FEFF is EF BB BF. *)
Definition is_space3 (a b c : ascii) : bool :=
  let x := N_of_ascii a in
  let y := N_of_ascii b in
  let z := N_of_ascii c in
  ((x =? 225) && (y =? 154) && (z =? 128)
   || (x =? 226) && (y =? 128)
      && ((128 <=? z) && (z <=? 138) || (z =? 168) || (z =? 169) || (z =? 175))
   || (x =? 226) && (y =? 129) && (z =? 159)
   || (x =? 227) && (y =? 128) && (z =? 128)
   || (x =? 239) && (y =? 187) && (z =? 191))%N.

(** [String.prototype.trimStart]: the white space code points in front
    are dropped. *)
Fixpoint trimStart (s : string) : string :=
  match s with
  | EmptyString => EmptyString
  | String a s1 =>
      if is_space1 a then trimStart s1
      else
        match s1 with
        | EmptyString => s
        | String b s2 =>
            if is_space2 a b then trimStart s2
            else
              match s2 with
              | EmptyString => s
              | String c s3 => if is_space3 a b c then trimStart s3 else s
              end
        end
  end.

(** [String.prototype.trimEnd]: the text is cut where only white space
    follows. *)
Fixpoint trimEnd (s : string) : string :=
  match s with
  | EmptyString => EmptyString
  | String c s' =>
      if str_empty (trimStart s) then EmptyString else String c (trimEnd s')
  end.

(** [String.prototype.trim]. *)
Definition trim (s : string) : string := trimEnd (trimStart s).

Definition lower_ascii (c : ascii) : ascii :=
  let n := nat_of_ascii c in
  if ((65 <=? n) && (n <=? 90))%nat then ascii_of_nat (n + 32) else c.

(** Lower case on the letters A to Z; every other byte stays.  This is
    [String.prototype.toLowerCase] on the texts whose cased letters are all
    ASCII (English names, codes, Arabic text), and it is used on such texts
    only, in the examples; the components take [toLowerCase] as an
    argument. *)
Fixpoint toLowerCaseAscii (s : string) : string :=
  match s with
  | EmptyString => EmptyString
  | String c s' => String (lower_ascii c) (toLowerCaseAscii s')
  end.

Fixpoint startsWith (s q : string) {struct q} : bool :=
  match q, s with
  | EmptyString, _ => true
  | String a q', String b s' => Ascii.eqb a b && startsWith s' q'
  | String _ _, EmptyString => false
  end.

(** [String.prototype.includes]: [q] occurs in [s] at some position. *)
Fixpoint includes (s q : string) : bool :=
  startsWith s q ||
  match s with
  | EmptyString => false
  | String _ s' => includes s' q
  end.

(** ** [parseFloat]

    The longest prefix of the text, after leading white space, that is a
    decimal literal (sign, [Infinity] or digits with an optional fraction
    and exponent), rounded to the nearest double; [NaN] when there is
    none. *)

Local Open Scope Z_scope.

Definition digit_of (c : ascii) : option Z :=
  let n := nat_of_ascii c in
  if ((48 <=? n) && (n <=? 57))%nat then Some (Z.of_nat (n - 48)) else None.

(** The longest run of digits in front of [s]: its value on top of [acc],
    its length on top of [count], and what follows. *)
Fixpoint read_digits (s : string) (acc : Z) (count : nat)
  : Z * nat * string :=
  match s with
  | EmptyString => (acc, count, s)
  | String c s' =>
      match digit_of c with
      | Some d => read_digits s' (10 * acc + d) (S count)
      | None => (acc, count, s)
      end
  end.

(** A sign in front of [s]: whether it is a minus, and what follows. *)
Definition read_sign (s : string) : bool * string :=
  match s with
  | String "-"%char s' => (true, s')
  | String "+"%char s' => (false, s')
  | _ => (false, s)
  end.

(** The exponent part in front of [s], 0 when there is none. *)
Definition read_exponent (s : string) : Z :=
  match s with
  | String c s' =>
      if Ascii.eqb c "e"%char || Ascii.eqb c "E"%char then
        let '(neg, s'') := read_sign s' in
        let '(v, count, _) := read_digits s'' 0 0%nat in
        match count with
        | O => 0
        | S _ => if neg then - v else v
        end
      else 0
  | EmptyString => 0
  end.

(** The double nearest to [m * 10 ^ k], for [0 <= m]. *)
Definition round_decimal (neg : bool) (m k : Z) : number :=
  if m =? 0 then S754_zero neg
  else if 0 <=? k
  then binary_normalize 53 1024 ((if neg then - m else m) * 10 ^ k) 0 neg
  else
    let '(q, e, l) := SFdiv_core_binary 53 1024 m 0 (10 ^ (- k)) 0 in
    binary_round_aux 53 1024 neg q e l.

Definition parseFloat (text : string) : number :=
  let '(neg, s) := read_sign (trimStart text) in
  if startsWith s "Infinity"%string then S754_infinity neg
  else
    let '(int_value, int_count, s1) := read_digits s 0 0%nat in
    let '(value, frac_count, s2) :=
      match s1 with
      | String "."%char s1' => read_digits s1' int_value 0%nat
      | _ => (int_value, 0%nat, s1)
      end in
    match (int_count + frac_count)%nat with
    | O => NaN
    | S _ => round_decimal neg value (read_exponent s2 - Z.of_nat frac_count)
    end.

Local Close Scope Z_scope.

(** ** Handlers with effects

    A handler runs from a component state; it returns or throws, leaves a
    next state and a trace of effects in the order they happened. *)

Section Eff.
Variables St Ev Ex : Type.

Record Run (A : Type) : Type :=
  { outcome : Ex + A; state : St; trace : list Ev }.

Definition Eff (A : Type) : Type := St -> Run A.

Definition ret {A} (a : A) : Eff A :=
  fun s => {| outcome := inr a; state := s; trace := [] |}.

Definition throw {A} (e : Ex) : Eff A :=
  fun s => {| outcome := inl e; state := s; trace := [] |}.

Definition bind {A B} (m : Eff A) (k : A -> Eff B) : Eff B :=
  fun s =>
    match m s with
    | {| outcome := inl e; state := s1; trace := t1 |} =>
        {| outcome := inl e; state := s1; trace := t1 |}
    | {| outcome := inr a; state := s1; trace := t1 |} =>
        match k a s1 with
        | {| outcome := o; state := s2; trace := t2 |} =>
            {| outcome := o; state := s2; trace := t1 ++ t2 |}
        end
    end.

(** [try { m } catch (e) { h e }] *)
Definition try_catch {A} (m : Eff A) (h : Ex -> Eff A) : Eff A :=
  fun s =>
    match m s with
    | {| outcome := inr a; state := s1; trace := t1 |} =>
        {| outcome := inr a; state := s1; trace := t1 |}
    | {| outcome := inl e; state := s1; trace := t1 |} =>
        match h e s1 with
        | {| outcome := o; state := s2; trace := t2 |} =>
            {| outcome := o; state := s2; trace := t1 ++ t2 |}
        end
    end.

(** [try { m } finally { f }]: [f] runs on both exits; what [m]
    returned or threw is kept unless [f] throws itself. *)
Definition try_finally {A} (m : Eff A) (f : Eff unit) : Eff A :=
  fun s =>
    match m s with
    | {| outcome := o; state := s1; trace := t1 |} =>
        match f s1 with
        | {| outcome := inl e; state := s2; trace := t2 |} =>
            {| outcome := inl e; state := s2; trace := t1 ++ t2 |}
        | {| outcome := inr _; state := s2; trace := t2 |} =>
            {| outcome := o; state := s2; trace := t1 ++ t2 |}
        end
    end.

(** One observable effect. *)
Definition emit (e : Ev) : Eff unit :=
  fun s => {| outcome := inr tt; state := s; trace := [e] |}.

(** A state setter, recorded in the trace as [e]. *)
Definition set (e : Ev) (f : St -> St) : Eff unit :=
  fun s => {| outcome := inr tt; state := f s; trace := [e] |}.

(** An awaited promise that has settled. *)
Definition await {A} (e : Ev) (settled : Ex + A) : Eff A :=
  fun s => {| outcome := settled; state := s; trace := [e] |}.
End Eff.

Arguments ret {St Ev Ex A} a.
Arguments throw {St Ev Ex A} e.
Arguments bind {St Ev Ex A B} m k.
Arguments try_catch {St Ev Ex A} m h.
Arguments try_finally {St Ev Ex A} m f.
Arguments emit {St Ev Ex} e.
Arguments set {St Ev Ex} e f.
Arguments await {St Ev Ex A} e settled.

Declare Scope eff_scope.
Delimit Scope eff_scope with eff.

Notation "x <- m ;; k" := (bind m (fun x => k))
  (at level 100, m at next level, right associativity) : eff_scope.
Notation "m ;; k" := (bind m (fun _ => k))
  (at level 100, right associativity) : eff_scope.

End Js.

(** * The refund dialog ([RefundDialog.tsx]) *)

Module RefundDialog.
Import Js.
Local Open Scope string_scope.
Local Open Scope eff_scope.

(** [orderId: string | number] *)
Inductive OrderId : Type :=
| OrderIdString (s : string)
| OrderIdNumber (n : number).

Record OrderDetails : Type :=
  { orderId : OrderId; amount : number; cardNumber : option string }.

(** The props; [onClose] is always there, [onSuccess] may be absent. *)
Record Props : Type :=
  { isOpen : bool; orderDetails : OrderDetails; onSuccess : bool }.

(** The three [useState] cells. *)
Record State : Type :=
  { refundAmount : number; reason : string; isProcessing : bool }.

Definition initialState (p : Props) : State :=
  {| refundAmount := amount (orderDetails p);
     reason := "";
     isProcessing := false |}.

Inductive Variant : Type := destructive | default.

Record ToastMessage : Type :=
  { title : string; description : string; variant : Variant }.

Record RefundRequest : Type :=
  { req_orderId : OrderId; req_amount : number; req_reason : string }.

(** What a rejected promise carries: an [Error] instance with its message
    (every [Error] has one, possibly empty), or any other value, with its
    [message] property when it has one. *)
Inductive Thrown : Type :=
| ErrorInstance (message : string)
| OtherValue (message : option string).

(** [error.message], when the thrown value has one. *)
Definition message_of (error : Thrown) : option string :=
  match error with
  | ErrorInstance message => Some message
  | OtherValue message => message
  end.

(** What the dialog does that is visible from outside. *)
Inductive Event : Type :=
| Toast (m : ToastMessage)
| ProcessRefund (r : RefundRequest)
| OnSuccess
| OnClose
| ConsoleError (label : string) (e : Thrown)
| SetRefundAmount (v : number)
| SetReason (r : string)
| SetIsProcessing (b : bool).

(** What the dialog is given from outside the file: the built-in
    [parseFloat] (any function from texts to numbers; [Js.parseFloat] is
    the one of the language), the translation function [t] of
    react-i18next, and how [VirtualCardService.processRefund] settles for a
    request: it throws ([inl]) or resolves ([inr]). *)
Record Env : Type :=
  { parseFloat : string -> number;
    t : string -> string;
    processRefund : RefundRequest -> Thrown + unit }.

Definition Handler : Type := Eff State Event Thrown unit.

Definition setRefundAmount (v : number) : Handler :=
  set (SetRefundAmount v)
      (fun s => {| refundAmount := v; reason := reason s;
                   isProcessing := isProcessing s |}).

Definition setReason (r : string) : Handler :=
  set (SetReason r)
      (fun s => {| refundAmount := refundAmount s; reason := r;
                   isProcessing := isProcessing s |}).

Definition setIsProcessing (b : bool) : Handler :=
  set (SetIsProcessing b)
      (fun s => {| refundAmount := refundAmount s; reason := reason s;
                   isProcessing := b |}).

Definition toast (m : ToastMessage) : Handler := emit (Toast m).

Section Handlers.
Variable env : Env.
Variable props : Props.
(** The state snapshot the handlers close over. *)
Variable snap : State.

(** [e.target.value] is the text of the input. *)
Definition handleAmountChange (value_text : string) : Handler :=
  let value := parseFloat env value_text in
  if negb (isNaN value) && gt value zero
     && le value (amount (orderDetails props))
  then setRefundAmount value
  else ret tt.

Definition handleReasonChange (value_text : string) : Handler :=
  setReason value_text.

(** The argument of [VirtualCardService.processRefund]. *)
Definition refundRequest : RefundRequest :=
  {| req_orderId := orderId (orderDetails props);
     req_amount := refundAmount snap;
     req_reason := reason snap |}.

Definition handleSubmit : Handler :=
  if le (refundAmount snap) zero
     || gt (refundAmount snap) (amount (orderDetails props))
  then
    toast {| title := t env "refund.invalidAmount";
             description := t env "refund.amountError";
             variant := destructive |}
  else if str_empty (trim (reason snap))
  then
    toast {| title := t env "refund.missingReason";
             description := t env "refund.reasonRequired";
             variant := destructive |}
  else
    setIsProcessing true ;;
    try_finally
      (try_catch
         (await (ProcessRefund refundRequest)
                (processRefund env refundRequest) ;;
          toast {| title := t env "refund.success";
                   description := t env "refund.processed";
                   variant := default |} ;;
          (if onSuccess props then emit OnSuccess else ret tt) ;;
          emit OnClose)
         (fun error =>
            emit (ConsoleError "Refund processing error:" error) ;;
            toast {| title := t env "refund.failed";
                     description :=
                       match error with
                       | ErrorInstance message => message
                       | OtherValue _ => t env "refund.errorMessage"
                       end;
                     variant := destructive |}))
      (setIsProcessing false).
End Handlers.

(** User actions on an open dialog. *)
Inductive Action : Type :=
| TypeAmount (text : string)
| TypeReason (text : string)
| ClickConfirm.

Definition handle (env : Env) (props : Props) (a : Action) (s : State)
  : Run State Event Thrown unit :=
  match a with
  | TypeAmount text => handleAmountChange env props text s
  | TypeReason text => handleReasonChange text s
  | ClickConfirm => handleSubmit env props s s
  end.

(** A session with the dialog: each action is handled on the state the
    previous one left; the traces are concatenated. *)
Fixpoint session (env : Env) (props : Props) (actions : list Action)
         (s : State) : State * list Event :=
  match actions with
  | [] => (s, [])
  | a :: rest =>
      let r := handle env props a s in
      let '(s', tr) := session env props rest (state r) in
      (s', (trace r ++ tr)%list)
  end.

(** The refund requests sent during a trace. *)
Definition refund_calls (tr : list Event) : list RefundRequest :=
  flat_map (fun e => match e with ProcessRefund r => [r] | _ => [] end) tr.

(** The notifications shown during a trace. *)
Definition toasts (tr : list Event) : list ToastMessage :=
  flat_map (fun e => match e with Toast m => [m] | _ => [] end) tr.

(** The refund-amount invariant of the data model. *)
Definition amount_in_range (total v : number) : bool :=
  lt zero v && le v total.

(** ** The dialog of the specification's scenario *)

Definition order42 : Props :=
  {| isOpen := true;
     orderDetails := {| orderId := OrderIdNumber (num 42);
                        amount := num 100;
                        cardNumber := None |};
     onSuccess := true |}.

(** A refund service that accepts every request. *)
Definition env_accepting : Env :=
  {| parseFloat := Js.parseFloat;
     t := fun key => key;
     processRefund := fun _ => inr tt |}.

(** Order 42 with 50 entered and a reason typed. *)
Definition state_fifty_damaged : State :=
  {| refundAmount := num 50; reason := "damaged item";
     isProcessing := false |}.

(** Order 42 with 50 entered and a reason of blanks. *)
Definition state_fifty_blank : State :=
  {| refundAmount := num 50; reason := "   "; isProcessing := false |}.

(** A refund service that rejects with a plain object that carries a
    message and is no [Error]. *)
Definition env_rejecting_object : Env :=
  {| parseFloat := Js.parseFloat;
     t := fun key => key;
     processRefund := fun _ => inl (OtherValue (Some "card declined")) |}.

(** A refund service that rejects with [new Error()]. *)
Definition env_rejecting_empty_error : Env :=
  {| parseFloat := Js.parseFloat;
     t := fun key => key;
     processRefund := fun _ => inl (ErrorInstance "") |}.

(** Order 42 as opened, with a reason typed. *)
Definition state_hundred_damaged : State :=
  {| refundAmount := num 100; reason := "damaged item";
     isProcessing := false |}.

(** Order 42 with 50 entered and a reason made of a no-break space
    (U+00A0) and an ideographic space (U+3000). *)
Definition state_fifty_nbsp : State :=
  {| refundAmount := num 50; reason := utf8 160 ++ utf8 12288;
     isProcessing := false |}.

(** A dialog opened on an order whose amount is not a number. *)
Definition order_nan : Props :=
  {| isOpen := true;
     orderDetails := {| orderId := OrderIdNumber (num 42);
                        amount := NaN;
                        cardNumber := None |};
     onSuccess := false |}.

(** A dialog opened on an order of amount zero. *)
Definition order_zero : Props :=
  {| isOpen := true;
     orderDetails := {| orderId := OrderIdString "free-7";
                        amount := zero;
                        cardNumber := None |};
     onSuccess := false |}.

(** The request of the scenario. *)
Definition request_fifty : RefundRequest :=
  {| req_orderId := OrderIdNumber (num 42);
     req_amount := num 50;
     req_reason := "damaged item" |}.

End RefundDialog.

(** * The country selector ([CountrySelector.tsx]) *)

Module CountrySelector.
Import Js.
Local Open Scope string_scope.

(** An entry of [countries] (imported from [country-data]). *)
Record Country : Type :=
  { code : string; name : string; nameAr : string; flagEmoji : string }.

(** The component reads the built-in [String.prototype.toLowerCase]; the
    functions below take it as their first argument, any function from
    texts to texts. *)

(** The callback given to [countries.filter]. *)
Definition matches (toLowerCase : string -> string)
           (countrySearchQuery : string) (country : Country) : bool :=
  let query := toLowerCase countrySearchQuery in
  includes (toLowerCase (name country)) query
  || includes (toLowerCase (nameAr country)) query
  || includes (toLowerCase (code country)) query.

Definition filteredCountries (toLowerCase : string -> string)
           (countries : list Country) (countrySearchQuery : string)
  : list Country :=
  if str_empty (trim countrySearchQuery)
  then countries
  else filter (matches toLowerCase countrySearchQuery) countries.

Definition favoriteCountries (countries : list Country) : list Country :=
  firstn 8 countries.

(** What is rendered under the search box. *)
Inductive ListView : Type :=
| CountryGrid (shown : list Country)
| NotFound (message : string).

(** [a || b] on strings: [b] when [a] is empty. *)
Definition or_else (a b : string) : string :=
  if str_empty a then b else a.

Definition renderList (t toLowerCase : string -> string)
           (countries : list Country) (countrySearchQuery : string)
  : ListView :=
  let filtered := filteredCountries toLowerCase countries countrySearchQuery in
  if (0 <? List.length filtered)%nat
  then CountryGrid filtered
  else NotFound (or_else (t "noCountriesFound") "لا توجد دول مطابقة").

(** ** The filter as the specification words it *)

(** [q] occurs in [field] without regard to letter case, in the sense the
    component gives to it: the lower-cased query is a contiguous part of
    the lower-cased field. *)
Definition contains_ci (toLowerCase : string -> string) (field q : string)
  : Prop :=
  exists before after,
    toLowerCase field = before ++ toLowerCase q ++ after.

Definition entry_matches (toLowerCase : string -> string) (q : string)
           (c : Country) : Prop :=
  contains_ci toLowerCase (name c) q
  \/ contains_ci toLowerCase (nameAr c) q
  \/ contains_ci toLowerCase (code c) q.

(** ** The component: state, handlers, the menu effect *)

(** The [useState] cells; [searchInputRef] is whether the input element
    is held. *)
Record State : Type :=
  { countrySearchQuery : string; animateIn : bool; searchInputRef : bool }.

Definition initialState : State :=
  {| countrySearchQuery := ""; animateIn := false; searchInputRef := false |}.

(** The functions given to [setTimeout], each with the value its closure
    captured when it was created. *)
Inductive Callback : Type :=
| FocusInput (searchInputRef : bool)
| ResetSearch (countryMenuOpen : bool)
| ReloadPage.

Inductive Event : Type :=
| SetCountrySearchQuery (q : string)
| SetAnimateIn (b : bool)
| SetTimeout (callback : Callback) (delay : nat)
| Focus
| Reload
| StopPropagation
| HandleCountryChange (code : string)
| SetCountryMenuOpen (b : bool).

(** Nothing here throws. *)
Definition Handler : Type := Eff State Event Empty_set unit.

Definition setCountrySearchQuery (q : string) : Handler :=
  set (SetCountrySearchQuery q)
      (fun s => {| countrySearchQuery := q; animateIn := animateIn s;
                   searchInputRef := searchInputRef s |}).

Definition setAnimateIn (b : bool) : Handler :=
  set (SetAnimateIn b)
      (fun s => {| countrySearchQuery := countrySearchQuery s; animateIn := b;
                   searchInputRef := searchInputRef s |}).

(** The effect on [countryMenuOpen, searchInputRef, isMobile]; [snap] is
    the state of the render it belongs to.  It returns no cleanup. *)
Definition menuEffect (countryMenuOpen isMobile : bool) (snap : State)
  : Handler :=
  if countryMenuOpen then
    bind (setAnimateIn true) (fun _ =>
    emit (SetTimeout (FocusInput (searchInputRef snap))
                     (if isMobile then 400 else 300)))
  else
    bind (setAnimateIn false) (fun _ =>
    emit (SetTimeout (ResetSearch countryMenuOpen) 300)).

(** A timer firing: the body of its callback. *)
Definition fire (callback : Callback) : Handler :=
  match callback with
  | FocusInput held => if held then emit Focus else ret tt
  | ResetSearch countryMenuOpen =>
      if negb countryMenuOpen then setCountrySearchQuery "" else ret tt
  | ReloadPage => emit Reload
  end.

Definition handleSearchInputChange (value_text : string) : Handler :=
  bind (emit StopPropagation) (fun _ => setCountrySearchQuery value_text).

Definition handleCountrySelect (code : string) : Handler :=
  bind (emit (HandleCountryChange code)) (fun _ =>
  emit (SetTimeout ReloadPage 100)).

(** The click handler of the search button. *)
Definition toggleMenu (countryMenuOpen : bool) : Handler :=
  emit (SetCountryMenuOpen (negb countryMenuOpen)).

(** The codes behind the buttons that call [handleCountrySelect]: the
    favourites row, then the grid when it is rendered. *)
Definition selectableCodes (t toLowerCase : string -> string)
           (countries : list Country) (countrySearchQuery : string)
  : list string :=
  (map code (favoriteCountries countries)
   ++ match renderList t toLowerCase countries countrySearchQuery with
      | CountryGrid shown => map code shown
      | NotFound _ => []
      end)%list.

(** The timers set during a trace. *)
Definition timers (tr : list Event) : list (Callback * nat) :=
  flat_map (fun e => match e with
                     | SetTimeout callback delay => [(callback, delay)]
                     | _ => []
                     end) tr.

(** Modelled from the spec: the list [countries] is imported from
    [country-data], which is not among the sources; an entry is static
    reference data with a code, two localized names and a flag glyph.  The
    functions above take the list as an argument; these four entries of
    that shape serve as an example. *)
Definition sample_countries : list Country :=
  [ {| code := "EG"; name := "Egypt"; nameAr := "مصر"; flagEmoji := "🇪🇬" |};
    {| code := "SA"; name := "Saudi Arabia";
       nameAr := "المملكة العربية السعودية"; flagEmoji := "🇸🇦" |};
    {| code := "AE"; name := "United Arab Emirates";
       nameAr := "الإمارات العربية المتحدة"; flagEmoji := "🇦🇪" |};
    {| code := "KW"; name := "Kuwait"; nameAr := "الكويت"; flagEmoji := "🇰🇼" |} ].

(** The first entry of [sample_countries]. *)
Definition egypt : Country :=
  {| code := "EG"; name := "Egypt"; nameAr := "مصر"; flagEmoji := "🇪🇬" |}.

End CountrySelector.

(** * The session context ([AuthContext.tsx]) *)

Module AuthContext.
Import Js.
Local Open Scope string_scope.
Local Open Scope eff_scope.

(** ** Data *)

(** An error object of the backend client, or an [Error]; the provider
    only ever reads its [message]. *)
Record JsError : Type := { message : string }.

Record User : Type := { user_id : string }.

(** [session?.user] *)
Record Session : Type := { session_user : option User }.

(** A row of table [profiles]. *)
Record Profile : Type :=
  { id : string; email : string; full_name : string;
    user_type : string; created_at : string }.

(** [metadata?: any]; the provider reads [metadata?.full_name]. *)
Record Metadata : Type := { md_full_name : option string }.

Inductive Variant : Type := destructive.

Record ToastMessage : Type :=
  { title : string; description : string; variant : option Variant }.

(** The six [useState] cells of [AuthProvider]. *)
Record State : Type :=
  { session : option Session; user : option User; loading : bool;
    isAdmin : bool; profile : option Profile; isLoading : bool }.

Definition initialState : State :=
  {| session := None; user := None; loading := true;
     isAdmin := false; profile := None; isLoading := true |}.

(** ** The hosted backend, as the client library presents it *)

(** [{ data, error }] of a table query. *)
Record Response (A : Type) : Type :=
  { data : option A; error : option JsError }.

(** [data] of [auth.signUp]. *)
Record SignUpData : Type := { data_user : option User }.

(** What [signUp] resolves to. *)
Record SignUpResult : Type :=
  { result_error : option JsError; result_data : option SignUpData }.

(** The backend at the time of a call.  Table queries always resolve to
    [{ data, error }]; the auth calls resolve to their [error] (and data)
    or reject ([inl]). *)
Record Supabase : Type :=
  { profiles : list Profile;
    (** [Some e]: a [select] on [profiles] fails (network, policy). *)
    select_fault : option JsError;
    (** [error] of [.insert(row)]. *)
    insert_profile : Profile -> option JsError;
    auth_signInWithPassword : string -> string -> JsError + option JsError;
    auth_signUp : string -> string -> option Metadata
                  -> JsError + (SignUpData * option JsError);
    auth_admin_deleteUser : string -> JsError + option JsError;
    auth_signOut : JsError + option JsError;
    (** [new Date().toISOString()] *)
    now : string }.

(** [.from('profiles').select(..).eq(column, value)] *)
Definition select_eq (sb : Supabase) (column : Profile -> string)
           (value : string) : JsError + list Profile :=
  match select_fault sb with
  | Some e => inl e
  | None => inr (filter (fun row => String.eqb (column row) value) (profiles sb))
  end.

(** [.single()]: exactly one row, otherwise an error. *)
Definition single (rows : JsError + list Profile) : Response Profile :=
  match rows with
  | inl e => {| data := None; error := Some e |}
  | inr [row] => {| data := Some row; error := None |}
  | inr _ =>
      {| data := None;
         error := Some {| message :=
           "JSON object requested, multiple (or no) rows returned" |} |}
  end.

(** [.maybeSingle()]: no row is [null] without error, one row is that
    row, several rows are an error. *)
Definition maybeSingle (rows : JsError + list Profile) : Response Profile :=
  match rows with
  | inl e => {| data := None; error := Some e |}
  | inr [] => {| data := None; error := None |}
  | inr [row] => {| data := Some row; error := None |}
  | inr _ =>
      {| data := None;
         error := Some {| message :=
           "JSON object requested, multiple (or no) rows returned" |} |}
  end.

(** ** Effects *)

(** Async functions of the provider that the listener calls without
    awaiting them. *)
Inductive Task : Type :=
| FetchProfile (userId : string)
| CheckUserRole (userId : string).

Inductive Event : Type :=
| Toast (m : ToastMessage)
| ConsoleError (label : string) (e : JsError)
| SelectIdByEmail (email : string)
| SelectProfileById (userId : string)
| SelectUserTypeById (userId : string)
| AuthSignInWithPassword (email password : string)
| AuthSignUp (email password : string) (metadata : option Metadata)
| InsertProfile (row : Profile)
| AuthAdminDeleteUser (userId : string)
| AuthSignOut
| Started (task : Task)
| SetSession (v : option Session)
| SetUser (v : option User)
| SetLoading (v : bool)
| SetIsAdmin (v : bool)
| SetProfile (v : option Profile)
| SetIsLoading (v : bool).

Definition Handler (A : Type) : Type := Eff State Event JsError A.

Definition setSession (v : option Session) : Handler unit :=
  set (SetSession v)
      (fun s => {| session := v; user := user s; loading := loading s;
                   isAdmin := isAdmin s; profile := profile s;
                   isLoading := isLoading s |}).

Definition setUser (v : option User) : Handler unit :=
  set (SetUser v)
      (fun s => {| session := session s; user := v; loading := loading s;
                   isAdmin := isAdmin s; profile := profile s;
                   isLoading := isLoading s |}).

Definition setLoading (v : bool) : Handler unit :=
  set (SetLoading v)
      (fun s => {| session := session s; user := user s; loading := v;
                   isAdmin := isAdmin s; profile := profile s;
                   isLoading := isLoading s |}).

Definition setIsAdmin (v : bool) : Handler unit :=
  set (SetIsAdmin v)
      (fun s => {| session := session s; user := user s; loading := loading s;
                   isAdmin := v; profile := profile s;
                   isLoading := isLoading s |}).

Definition setProfile (v : option Profile) : Handler unit :=
  set (SetProfile v)
      (fun s => {| session := session s; user := user s; loading := loading s;
                   isAdmin := isAdmin s; profile := v;
                   isLoading := isLoading s |}).

Definition setIsLoading (v : bool) : Handler unit :=
  set (SetIsLoading v)
      (fun s => {| session := session s; user := user s; loading := loading s;
                   isAdmin := isAdmin s; profile := profile s;
                   isLoading := v |}).

Definition toast (m : ToastMessage) : Handler unit := emit (Toast m).

(** [if (error) throw error;] *)
Definition throw_if (error : option JsError) : Handler unit :=
  match error with
  | Some e => throw e
  | None => ret tt
  end.

(** [session?.user ?? null] *)
Definition user_of (session : option Session) : option User :=
  match session with
  | Some s => session_user s
  | None => None
  end.

(** ** The provider's functions *)

Section Provider.
Variable sb : Supabase.

Definition fetchProfile (userId : string) : Handler unit :=
  try_catch
    (r <- await (SelectProfileById userId)
                (inr (single (select_eq sb id userId))) ;;
     throw_if (error r) ;;
     setProfile (data r))
    (fun error => emit (ConsoleError "Error fetching profile:" error)).

(** The closure reads [user] from the rendered snapshot. *)
Definition refreshProfile (snap : State) : Handler unit :=
  match user snap with
  | None => ret tt
  | Some u => fetchProfile (user_id u)
  end.

Definition checkUserRole (userId : string) : Handler unit :=
  if str_empty userId then ret tt
  else
    try_catch
      (r <- await (SelectUserTypeById userId)
                  (inr (single (select_eq sb id userId))) ;;
       throw_if (error r) ;;
       setIsAdmin (match data r with
                   | Some row => String.eqb (user_type row) "admin"
                   | None => false
                   end))
      (fun error => emit (ConsoleError "Error checking user role:" error)).

(** The callback registered with [supabase.auth.onAuthStateChange].
    [fetchProfile] and [checkUserRole] are called and not awaited: the
    listener goes on, and each completes later ([complete]). *)
Definition onAuthStateChange (event : string) (session : option Session)
  : Handler unit :=
  setSession session ;;
  setUser (user_of session) ;;
  (match user_of session with
   | Some u =>
       emit (Started (FetchProfile (user_id u))) ;;
       emit (Started (CheckUserRole (user_id u)))
   | None => ret tt
   end) ;;
  (if String.eqb event "SIGNED_OUT"
   then setIsAdmin false ;; setProfile None
   else ret tt) ;;
  setLoading false ;;
  setIsLoading false.

(** A started task running to its end. *)
Definition complete (task : Task) : Handler unit :=
  match task with
  | FetchProfile userId => fetchProfile userId
  | CheckUserRole userId => checkUserRole userId
  end.

(** The callback of [supabase.auth.getSession().then] in the mount
    effect. *)
Definition onInitialSession (session : option Session) : Handler unit :=
  setSession session ;;
  setUser (user_of session) ;;
  (match user_of session with
   | Some u =>
       emit (Started (FetchProfile (user_id u))) ;;
       emit (Started (CheckUserRole (user_id u)))
   | None => ret tt
   end) ;;
  setLoading false ;;
  setIsLoading false.

Definition signIn (email password : string)
  : Handler (option JsError) :=
  try_catch
    (error <- await (AuthSignInWithPassword email password)
                    (auth_signInWithPassword sb email password) ;;
     throw_if error ;;
     ret None)
    (fun error =>
       toast {| title := "auth.login_failed";
                description := message error;
                variant := Some destructive |} ;;
       ret (Some error)).

(** The row [signUp] inserts for the identity it has just created. *)
Definition new_profile (u : User) (email : string)
           (metadata : option Metadata) : Profile :=
  {| id := user_id u;
     email := email;
     full_name := match metadata with
                  | Some md => match md_full_name md with
                               | Some n => n
                               | None => ""
                               end
                  | None => ""
                  end;
     user_type := "user";
     created_at := now sb |}.

Definition signUp (email password : string) (metadata : option Metadata)
  : Handler SignUpResult :=
  try_catch
    (check <- await (SelectIdByEmail email)
                    (inr (maybeSingle (select_eq sb AuthContext.email email))) ;;
     let existingUser := data check in
     let checkError := error check in
     (match checkError with
      | Some e => emit (ConsoleError "Error checking existing user:" e)
      | None => ret tt
      end) ;;
     match existingUser with
     | Some _ =>
         toast {| title := "auth.registration_failed";
                  description := "auth.email_already_exists";
                  variant := Some destructive |} ;;
         ret {| result_error :=
                  Some {| message := "auth.email_already_exists" |};
                result_data := None |}
     | None =>
         created <- await (AuthSignUp email password metadata)
                          (auth_signUp sb email password metadata) ;;
         throw_if (snd created) ;;
         (match data_user (fst created) with
          | Some u =>
              try_catch
                (let row := new_profile u email metadata in
                 profileError <- await (InsertProfile row)
                                       (inr (insert_profile sb row)) ;;
                 match profileError with
                 | Some pe =>
                     emit (ConsoleError "Error creating profile:" pe) ;;
                     try_catch
                       (await (AuthAdminDeleteUser (user_id u))
                              (auth_admin_deleteUser sb (user_id u)) ;;
                        ret tt)
                       (fun deleteError =>
                          emit (ConsoleError
                            "Error deleting user after profile creation failure:"
                            deleteError)) ;;
                     throw {| message := "auth.profile_creation_failed" |}
                 | None => ret tt
                 end)
                (fun profileCreationError => throw profileCreationError)
          | None => ret tt
          end) ;;
         toast {| title := "auth.registration_success";
                  description := "auth.account_created";
                  variant := None |} ;;
         ret {| result_error := None;
                result_data := Some (fst created) |}
     end)
    (fun error =>
       toast {| title := "auth.registration_failed";
                description :=
                  if str_empty (message error)
                  then "auth.unknown_error" else message error;
                variant := Some destructive |} ;;
       ret {| result_error := Some error; result_data := None |}).

Definition signOut : Handler unit :=
  await AuthSignOut (auth_signOut sb) ;;
  ret tt.
End Provider.

(** The notifications shown during a trace. *)
Definition toasts (tr : list Event) : list ToastMessage :=
  flat_map (fun e => match e with Toast m => [m] | _ => [] end) tr.

(** The async functions started during a trace. *)
Definition started (tr : list Event) : list Task :=
  flat_map (fun e => match e with Started task => [task] | _ => [] end) tr.

(** The calls to the backend made during a trace. *)
Definition is_backend_call (e : Event) : bool :=
  match e with
  | SelectIdByEmail _ | SelectProfileById _ | SelectUserTypeById _
  | AuthSignInWithPassword _ _ | AuthSignUp _ _ _ | InsertProfile _
  | AuthAdminDeleteUser _ | AuthSignOut => true
  | _ => false
  end.

(** An auth identity was asked for. *)
Definition is_identity_creation (e : Event) : bool :=
  match e with AuthSignUp _ _ _ => true | _ => false end.

(** A profile row was written. *)
Definition is_profile_insert (e : Event) : bool :=
  match e with InsertProfile _ => true | _ => false end.

(** What the pre-check of [signUp] leaves in the trace: the query, and
    the console line when the query failed. *)
Definition precheck_trace (sb : Supabase) (email : string) : list Event :=
  SelectIdByEmail email ::
  match error (maybeSingle (select_eq sb AuthContext.email email)) with
  | Some e => [ConsoleError "Error checking existing user:" e]
  | None => []
  end.

(** ** Backends for the examples *)

Definition row_alice : Profile :=
  {| id := "u1"; email := "alice@example.com"; full_name := "Alice";
     user_type := "user"; created_at := "2024-01-01T00:00:00.000Z" |}.

(** Everything works; Alice has a profile. *)
Definition sb_healthy : Supabase :=
  {| profiles := [row_alice];
     select_fault := None;
     insert_profile := fun _ => None;
     auth_signInWithPassword := fun _ _ => inr None;
     auth_signUp := fun _ _ _ =>
       inr ({| data_user := Some {| user_id := "u2" |} |}, None);
     auth_admin_deleteUser := fun _ => inr None;
     auth_signOut := inr None;
     now := "2024-06-01T12:00:00.000Z" |}.

(** As [sb_healthy], but queries on [profiles] fail. *)
Definition sb_select_down : Supabase :=
  {| profiles := [row_alice];
     select_fault := Some {| message := "TypeError: Failed to fetch" |};
     insert_profile := fun _ => None;
     auth_signInWithPassword := fun _ _ => inr None;
     auth_signUp := fun _ _ _ =>
       inr ({| data_user := Some {| user_id := "u2" |} |}, None);
     auth_admin_deleteUser := fun _ => inr None;
     auth_signOut := inr None;
     now := "2024-06-01T12:00:00.000Z" |}.

(** Identities can be created, profile rows cannot be written, and the
    client is not allowed to delete identities. *)
Definition sb_insert_denied : Supabase :=
  {| profiles := [row_alice];
     select_fault := None;
     insert_profile := fun _ =>
       Some {| message := "new row violates row-level security policy" |};
     auth_signInWithPassword := fun _ _ => inr None;
     auth_signUp := fun _ _ _ =>
       inr ({| data_user := Some {| user_id := "u2" |} |}, None);
     auth_admin_deleteUser := fun _ => inl {| message := "User not allowed" |};
     auth_signOut := inr None;
     now := "2024-06-01T12:00:00.000Z" |}.

(** The auth service refuses every call. *)
Definition sb_auth_down : Supabase :=
  {| profiles := [row_alice];
     select_fault := None;
     insert_profile := fun _ => None;
     auth_signInWithPassword := fun _ _ =>
       inr (Some {| message := "Invalid login credentials" |});
     auth_signUp := fun _ _ _ =>
       inr ({| data_user := None |},
            Some {| message := "Signups not allowed for this instance" |});
     auth_admin_deleteUser := fun _ => inr None;
     auth_signOut := inr (Some {| message := "Auth session missing!" |});
     now := "2024-06-01T12:00:00.000Z" |}.

(** The auth service accepts a sign-up and returns no user with it. *)
Definition sb_no_user : Supabase :=
  {| profiles := [row_alice];
     select_fault := None;
     insert_profile := fun _ => None;
     auth_signInWithPassword := fun _ _ => inr None;
     auth_signUp := fun _ _ _ => inr ({| data_user := None |}, None);
     auth_admin_deleteUser := fun _ => inr None;
     auth_signOut := inr None;
     now := "2024-06-01T12:00:00.000Z" |}.

(** Alice signed in, profile loaded. *)
Definition state_alice : State :=
  {| session := Some {| session_user := Some {| user_id := "u1" |} |};
     user := Some {| user_id := "u1" |};
     loading := false;
     isAdmin := true;
     profile := Some row_alice;
     isLoading := false |}.

End AuthContext.

(** * Facts about the built-ins *)

Section NumberFacts.
Import Js.

Lemma SFcompare_antisym (x y : number) :
  SFcompare y x = option_map CompOpp (SFcompare x y).
Proof.
  destruct x as [sx | sx | | sx mx ex], y as [sy | sy | | sy my ey];
    simpl; try reflexivity;
    try (destruct sx; reflexivity);
    try (destruct sy; reflexivity);
    try (destruct sx, sy; reflexivity).
  change (Pos.compare_cont Eq my mx) with (Pos.compare my mx).
  change (Pos.compare_cont Eq mx my) with (Pos.compare mx my).
  rewrite (Z.compare_antisym ex ey), (Pos.compare_antisym mx my).
  destruct sx, sy; simpl; try reflexivity;
    destruct (Z.compare ex ey); simpl; try reflexivity;
    destruct (Pos.compare mx my); reflexivity.
Qed.

Lemma SFcompare_nan (x y : number) :
  isNaN x = false -> isNaN y = false -> exists c, SFcompare x y = Some c.
Proof.
  destruct x, y; simpl; intros Hx Hy; try discriminate; eauto.
Qed.

(** Away from NaN, [x > y] is the negation of [x <= y]. *)
Lemma gt_not_le (x y : number) :
  isNaN x = false -> isNaN y = false -> gt x y = negb (le x y).
Proof.
  intros Hx Hy. unfold gt, le, SFltb, SFleb.
  rewrite (SFcompare_antisym x y).
  destruct (SFcompare_nan x y Hx Hy) as [c ->].
  destruct c; reflexivity.
Qed.

Lemma lt_not_nan (x y : number) :
  lt x y = true -> isNaN x = false /\ isNaN y = false.
Proof.
  unfold lt, SFltb. destruct x, y; simpl; intros H; try discriminate; auto.
Qed.

Lemma le_not_nan (x y : number) :
  le x y = true -> isNaN x = false /\ isNaN y = false.
Proof.
  unfold le, SFleb. destruct x, y; simpl; intros H; try discriminate; auto.
Qed.

Lemma le_refl (x : number) : isNaN x = false -> le x x = true.
Proof.
  unfold le, SFleb. destruct x as [s | s | | s m e]; simpl;
    intros H; try discriminate; try reflexivity.
  - destruct s; reflexivity.
  - change (Pos.compare_cont Eq m m) with (Pos.compare m m).
    rewrite Z.compare_refl, Pos.compare_refl. destruct s; reflexivity.
Qed.

(** The two tests of the amount gate, against the range of the data
    model: off NaN they are the same test. *)
Lemma gate_in_range (total a : number) :
  isNaN a = false -> isNaN total = false ->
  le a zero || gt a total = negb (lt zero a && le a total).
Proof.
  intros Ha Ht.
  rewrite (gt_not_le a total Ha Ht).
  assert (Hz : le a zero = negb (lt zero a)).
  { change (lt zero a) with (gt a zero).
    rewrite (gt_not_le a zero Ha eq_refl). now rewrite negb_involutive. }
  rewrite Hz. now rewrite negb_andb.
Qed.

Lemma in_range_passes_gate (total a : number) :
  lt zero a && le a total = true -> le a zero || gt a total = false.
Proof.
  intros H. apply andb_true_iff in H as [H0 H1].
  destruct (lt_not_nan _ _ H0) as [_ Ha].
  destruct (le_not_nan _ _ H1) as [_ Ht].
  rewrite (gate_in_range total a Ha Ht), H0, H1. reflexivity.
Qed.
End NumberFacts.

Section StringFacts.
Import Js.
Local Open Scope string_scope.

Lemma str_empty_true (s : string) : str_empty s = true <-> s = "".
Proof. destruct s; simpl; split; intros H; congruence. Qed.

Lemma all_from_spec (f : N -> bool) (n : positive) :
  forall start x,
    all_from f n start = true ->
    (start <= x < start + Npos n)%N -> f x = true.
Proof.
  induction n as [p IH | p IH |]; intros start x Hall Hx; simpl in Hall.
  - apply andb_true_iff in Hall as [Hall H2].
    apply andb_true_iff in Hall as [H0 H1].
    destruct (N.eq_dec x start) as [-> | Hne]; [exact H0 |].
    destruct (N.lt_ge_cases x (start + 1 + Npos p)) as [Hlt | Hge].
    + apply (IH (start + 1)%N x H1). lia.
    + apply (IH (start + 1 + Npos p)%N x H2). lia.
  - apply andb_true_iff in Hall as [H0 H1].
    destruct (N.lt_ge_cases x (start + Npos p)) as [Hlt | Hge].
    + apply (IH start x H0). lia.
    + apply (IH (start + Npos p)%N x H1). lia.
  - assert (x = start) as -> by lia. exact Hall.
Qed.

(** [trim] agrees with the language on every code point: the text of a
    single code point trims to nothing exactly when the code point is white
    space. *)
Lemma trim_code_point (cp : N) :
  (cp < 1114112)%N ->
  str_empty (trim (utf8 cp)) = existsb (N.eqb cp) white_space_code_points.
Proof.
  intros Hcp. destruct (N.lt_ge_cases cp 65536) as [Hbmp | Hhigh].
  - apply Bool.eqb_prop.
    apply (@all_from_spec
             (fun c => Bool.eqb (str_empty (trim (utf8 c)))
                         (existsb (N.eqb c) white_space_code_points))
             65536%positive 0%N cp); [vm_compute; reflexivity | lia].
  - assert (Hlist : existsb (N.eqb cp) white_space_code_points = false).
    { apply Bool.not_true_is_false. intros H.
      apply existsb_exists in H as (w & Hin & Heq).
      apply N.eqb_eq in Heq. subst w. simpl in Hin.
      repeat (destruct Hin as [Hin | Hin]; [lia |]). exact Hin. }
    rewrite Hlist. unfold utf8.
    destruct (N.ltb_spec cp 128); [lia |].
    destruct (N.ltb_spec cp 2048); [lia |].
    destruct (N.ltb_spec cp 65536); [lia |].
    assert (Hk : (cp / 262144 <= 4)%N).
    { apply N.lt_succ_r. apply N.Div0.div_lt_upper_bound. lia. }
    destruct (cp / 262144)%N as [| k]; [reflexivity |].
    destruct k as [[[]|[]|]|[[]|[]|]|]; try lia; reflexivity.
Qed.

Lemma startsWith_spec (s q : string) :
  startsWith s q = true <-> exists after, s = q ++ after.
Proof.
  revert s. induction q as [| a q IH]; intros s; simpl.
  - split; [intros _; now exists s | reflexivity].
  - destruct s as [| b s].
    + split; [discriminate | intros [x Hx]; discriminate].
    + rewrite andb_true_iff, IH. split.
      * intros [Hab [x ->]]. apply Ascii.eqb_eq in Hab. subst. now exists x.
      * intros [x Hx]. injection Hx as -> ->. split;
          [apply Ascii.eqb_refl | now exists x].
Qed.

(** [includes] finds exactly the contiguous occurrences. *)
Lemma includes_spec (s q : string) :
  includes s q = true <-> exists before after, s = before ++ q ++ after.
Proof.
  induction s as [| c s IH].
  - simpl. rewrite orb_false_r, startsWith_spec. split.
    + intros [x Hx]. now exists "", x.
    + intros (b & a & H). destruct b; simpl in H; [now exists a | discriminate].
  - change (includes (String c s) q)
      with (startsWith (String c s) q || includes s q).
    rewrite orb_true_iff, startsWith_spec, IH. split.
    + intros [[x Hx] | (b & a & H)].
      * now exists "", x.
      * exists (String c b), a. simpl. now rewrite H.
    + intros (b & a & H). destruct b as [| c' b]; simpl in H.
      * left. now exists a.
      * right. injection H as -> ->. now exists b, a.
Qed.
End StringFacts.

(** * The refund dialog: properties *)

Section RefundDialogProperties.
Import Js RefundDialog.
Local Open Scope string_scope.

Variable env : Env.
Variable props : Props.

(** Off NaN, the amount gate of [handleSubmit] is the range test: outside
    the range one notification about the amount and no call; inside it the
    call is made exactly when the reason is not blank. *)
Lemma handleSubmit_amount_gate (s : State) :
  isNaN (refundAmount s) = false ->
  isNaN (amount (orderDetails props)) = false ->
  let r := handleSubmit env props s s in
  (amount_in_range (amount (orderDetails props)) (refundAmount s) = false ->
   trace r = [Toast {| title := t env "refund.invalidAmount";
                       description := t env "refund.amountError";
                       variant := destructive |}])
  /\ (refund_calls (trace r) <> [] <->
      amount_in_range (amount (orderDetails props)) (refundAmount s) = true
      /\ trim (reason s) <> "").
Proof.
  intros Ha Ht r. subst r. unfold handleSubmit, amount_in_range.
  rewrite (gate_in_range _ _ Ha Ht).
  destruct (lt zero (refundAmount s) && le (refundAmount s) _) eqn:Hr; simpl.
  - split; [discriminate |].
    destruct (trim (reason s)) eqn:Hq; simpl.
    + split; [intros H; now elim H | intros [_ H]; now elim H].
    + split; [intros _; split; [reflexivity | discriminate] |].
      intros _.
      destruct (processRefund env _); simpl; [discriminate |].
      destruct (onSuccess props); simpl; discriminate.
  - split; [reflexivity |].
    split; [intros H; now elim H | intros [H _]; discriminate].
Qed.

(** The run of a submission that passes both tests. *)
Lemma handleSubmit_run_valid (s : State) :
  amount_in_range (amount (orderDetails props)) (refundAmount s) = true ->
  trim (reason s) <> "" ->
  handleSubmit env props s s =
    {| outcome := inr tt;
       state := {| refundAmount := refundAmount s; reason := reason s;
                   isProcessing := false |};
       trace :=
         SetIsProcessing true :: ProcessRefund (refundRequest props s) ::
         match processRefund env (refundRequest props s) with
         | inr _ =>
             Toast {| title := t env "refund.success";
                      description := t env "refund.processed";
                      variant := default |} ::
             (if onSuccess props then [OnSuccess] else [])
             ++ [OnClose; SetIsProcessing false]
         | inl error =>
             [ConsoleError "Refund processing error:" error;
              Toast {| title := t env "refund.failed";
                       description :=
                         match error with
                         | ErrorInstance message => message
                         | OtherValue _ => t env "refund.errorMessage"
                         end;
                       variant := destructive |};
              SetIsProcessing false]
         end%list |}.
Proof.
  intros Hrange Hreason. unfold handleSubmit.
  rewrite (in_range_passes_gate _ _ Hrange).
  destruct (trim (reason s)) eqn:Hq; [now elim Hreason |].
  simpl.
  destruct (processRefund env _) as [error | []]; simpl.
  - reflexivity.
  - destruct (onSuccess props); reflexivity.
Qed.

(** The run of a submission whose amount passes and whose reason is
    blank. *)
Lemma handleSubmit_run_blank (s : State) :
  amount_in_range (amount (orderDetails props)) (refundAmount s) = true ->
  trim (reason s) = "" ->
  handleSubmit env props s s =
    {| outcome := inr tt; state := s;
       trace := [Toast {| title := t env "refund.missingReason";
                          description := t env "refund.reasonRequired";
                          variant := destructive |}] |}.
Proof.
  intros Hrange Hblank. unfold handleSubmit.
  rewrite (in_range_passes_gate _ _ Hrange), Hblank. reflexivity.
Qed.

(** The test of [handleAmountChange] is the range test on the parsed
    value. *)
Lemma handleAmountChange_run (s : State) (text : string) :
  handleAmountChange env props text s =
    if amount_in_range (amount (orderDetails props)) (parseFloat env text)
    then setRefundAmount (parseFloat env text) s
    else ret tt s.
Proof.
  unfold handleAmountChange, amount_in_range, gt, lt.
  destruct (parseFloat env text) as [sg | sg | | sg m e]; simpl;
    try reflexivity;
    match goal with |- context [if ?b then _ else _] => destruct b end;
    reflexivity.
Qed.

(** C8: a reason that is blank after trimming stops the submission, whether
    the amount passes its own test or not: one destructive notification is
    shown and the refund service is not called. *)
Theorem handleSubmit_rejects_blank_reason (s : State) :
  trim (reason s) = "" ->
  let r := handleSubmit env props s s in
  refund_calls (trace r) = []
  /\ exists m, trace r = [Toast m] /\ variant m = destructive.
Proof.
  intros Hblank r. subst r. unfold handleSubmit.
  destruct (le (refundAmount s) zero || gt (refundAmount s) _); simpl.
  - split; [reflexivity | eauto].
  - rewrite Hblank. simpl. split; [reflexivity | eauto].
Qed.

(** C3, as the code has it: a submission with an amount in range and a
    reason that is not blank raises the processing flag and calls the
    refund operation with the order's id, the entered amount and the
    entered reason.  If the call resolves, the success notification is
    shown, [onSuccess] is called (when given) and the dialog is closed.
    If it throws, the error is logged and the failure notification shows
    the message of the thrown value when that value is an [Error] (whatever
    the message, the empty one too) and the generic message when it is not
    an [Error] (also when it carries a message); the dialog is not closed.
    The flag is lowered last on both paths. *)
Theorem handleSubmit_valid_submission (s : State) :
  amount_in_range (amount (orderDetails props)) (refundAmount s) = true ->
  trim (reason s) <> "" ->
  let request :=
    {| req_orderId := orderId (orderDetails props);
       req_amount := refundAmount s;
       req_reason := reason s |} in
  let r := handleSubmit env props s s in
  state r = {| refundAmount := refundAmount s; reason := reason s;
               isProcessing := false |}
  /\ match processRefund env request with
     | inr _ =>
         trace r =
           ([SetIsProcessing true; ProcessRefund request;
            Toast {| title := t env "refund.success";
                     description := t env "refund.processed";
                     variant := default |}]
           ++ (if onSuccess props then [OnSuccess] else [])
           ++ [OnClose; SetIsProcessing false])%list
     | inl error =>
         trace r =
           [SetIsProcessing true; ProcessRefund request;
            ConsoleError "Refund processing error:" error;
            Toast {| title := t env "refund.failed";
                     description :=
                       match error with
                       | ErrorInstance message => message
                       | OtherValue _ => t env "refund.errorMessage"
                       end;
                     variant := destructive |};
            SetIsProcessing false]
     end.
Proof.
  intros Hrange Hreason request r. subst r.
  rewrite (handleSubmit_run_valid s Hrange Hreason). simpl.
  split; [reflexivity |].
  change (refundRequest props s) with request.
  destruct (processRefund env request) as [error | []]; reflexivity.
Qed.

(** C10: an amount-change event replaces [refundAmount] by the parsed
    value exactly when that value is a number in the range
    [0 < v <= orderDetails.amount], and leaves it alone otherwise; so when
    the order amount is positive the range holds of the initial
    [refundAmount] and every amount-change event keeps it. *)
Theorem handleAmountChange_keeps_range (s : State) (text : string) :
  let total := amount (orderDetails props) in
  let v := parseFloat env text in
  let s' := state (handleAmountChange env props text s) in
  refundAmount s' = (if amount_in_range total v then v else refundAmount s)
  /\ (lt zero total = true ->
      amount_in_range total (refundAmount (initialState props)) = true
      /\ (amount_in_range total (refundAmount s) = true ->
          amount_in_range total (refundAmount s') = true)).
Proof.
  intros total v s'. subst s'. rewrite handleAmountChange_run. fold total v.
  destruct (amount_in_range total v) eqn:Hv; simpl.
  - split; [reflexivity |]. intros Hpos. split; [| intros _; exact Hv].
    unfold amount_in_range. fold total. rewrite Hpos. simpl.
    apply le_refl, (lt_not_nan _ _ Hpos).
  - split; [reflexivity |]. intros Hpos. split; [| auto].
    unfold amount_in_range. fold total. rewrite Hpos. simpl.
    apply le_refl, (lt_not_nan _ _ Hpos).
Qed.

(** No handler but [handleAmountChange] writes [refundAmount]. *)
Lemma handleSubmit_keeps_amount (s : State) :
  refundAmount (state (handleSubmit env props s s)) = refundAmount s.
Proof.
  unfold handleSubmit.
  destruct (le (refundAmount s) zero || gt (refundAmount s) _);
    [reflexivity |].
  destruct (str_empty (trim (reason s))); [reflexivity |].
  simpl. destruct (processRefund env _) as [e | []]; simpl;
    [reflexivity |].
  destruct (onSuccess props); reflexivity.
Qed.

(** The range is an invariant of the dialog: it holds of every state
    reached from a state in range, whatever the user does. *)
Lemma session_keeps_range (actions : list Action) (s : State) :
  amount_in_range (amount (orderDetails props)) (refundAmount s) = true ->
  amount_in_range (amount (orderDetails props))
    (refundAmount (fst (session env props actions s))) = true.
Proof.
  revert s. induction actions as [| a rest IH]; intros s Hs; [exact Hs |].
  simpl. destruct (session env props rest (state (handle env props a s)))
    as [s' tr] eqn:Hrest.
  simpl. change s' with (fst (s', tr)). rewrite <- Hrest. apply IH.
  destruct a as [text | text |]; simpl.
  - rewrite handleAmountChange_run.
    destruct (amount_in_range _ (parseFloat env text)) eqn:Hv;
      [exact Hv | exact Hs].
  - exact Hs.
  - now rewrite handleSubmit_keeps_amount.
Qed.
End RefundDialogProperties.

Section RefundScenario.
Import Js RefundDialog.
Local Open Scope string_scope.

(** C7, as the code has it: the dialog is opened on order 42 of amount
    100.  An entered amount of 150 is dropped by the amount field: the
    amount stays 100 and nothing is shown.  A confirm with the amount still
    100 shows the missing-reason notification and sends nothing when the
    reason is blank, as it is in the dialog just opened, and sends a refund
    of 100 when a reason has been typed.  Typing 50, then the reason
    "damaged item", and confirming sends exactly
    [{orderId: 42, amount: 50, reason: "damaged item"}]; when the service
    accepts, the success notification is shown and the dialog closes. *)
Theorem refund_scenario_order_42
        (env : Env) (card : option string) (callback : bool) :
  parseFloat env "150" = num 150 ->
  parseFloat env "50" = num 50 ->
  let props :=
    {| isOpen := true;
       orderDetails := {| orderId := OrderIdNumber (num 42);
                          amount := num 100;
                          cardNumber := card |};
       onSuccess := callback |} in
  let request :=
    {| req_orderId := OrderIdNumber (num 42);
       req_amount := num 50;
       req_reason := "damaged item" |} in
  processRefund env request = inr tt ->
  let first := session env props [TypeAmount "150"; ClickConfirm]
                       (initialState props) in
  let second := session env props
                        [TypeAmount "50"; TypeReason "damaged item";
                         ClickConfirm]
                        (fst first) in
  (forall s : State, handleAmountChange env props "150" s = ret tt s)
  /\ (forall s : State,
        refundAmount s = num 100 ->
        (trim (reason s) = "" ->
         handleSubmit env props s s =
           {| outcome := inr tt; state := s;
              trace := [Toast {| title := t env "refund.missingReason";
                                 description := t env "refund.reasonRequired";
                                 variant := destructive |}] |})
        /\ (trim (reason s) <> "" ->
            refund_calls (trace (handleSubmit env props s s))
            = [{| req_orderId := OrderIdNumber (num 42);
                  req_amount := num 100;
                  req_reason := reason s |}]))
  /\ first = (initialState props,
              [Toast {| title := t env "refund.missingReason";
                        description := t env "refund.reasonRequired";
                        variant := destructive |}])
  /\ refund_calls (snd first) = []
  /\ refund_calls (snd second) = [request]
  /\ toasts (snd second) = [{| title := t env "refund.success";
                               description := t env "refund.processed";
                               variant := default |}]
  /\ snd second =
       ([SetRefundAmount (num 50); SetReason "damaged item";
         SetIsProcessing true; ProcessRefund request;
         Toast {| title := t env "refund.success";
                  description := t env "refund.processed";
                  variant := default |}]
        ++ (if callback then [OnSuccess] else [])
        ++ [OnClose; SetIsProcessing false])%list.
Proof.
  intros H150 H50 props request Hok first second.
  assert (Hdrop : forall s : State,
             handleAmountChange env props "150" s = ret tt s).
  { intros s. rewrite handleAmountChange_run, H150. reflexivity. }
  assert (Hhundred : amount_in_range (amount (orderDetails props)) (num 100)
                     = true) by reflexivity.
  assert (Hfirst : first =
    (initialState props,
     [Toast {| title := t env "refund.missingReason";
               description := t env "refund.reasonRequired";
               variant := destructive |}])).
  { subst first. unfold session, handle. rewrite Hdrop.
    change (state (ret tt (initialState props))) with (initialState props).
    rewrite handleSubmit_run_blank by reflexivity. reflexivity. }
  assert (Hsecond : snd second =
    ([SetRefundAmount (num 50); SetReason "damaged item";
      SetIsProcessing true; ProcessRefund request;
      Toast {| title := t env "refund.success";
               description := t env "refund.processed";
               variant := default |}]
     ++ (if callback then [OnSuccess] else [])
     ++ [OnClose; SetIsProcessing false])%list).
  { subst second. rewrite Hfirst. unfold fst, session, handle.
    rewrite handleAmountChange_run, H50.
    change (amount_in_range (amount (orderDetails props)) (num 50))
      with true.
    cbv beta iota.
    match goal with
    | |- context [handleSubmit env props ?s ?s] =>
        rewrite (handleSubmit_run_valid env props s)
          by (try reflexivity; discriminate)
    end.
    change (refundRequest props _) with request. rewrite Hok.
    destruct callback; reflexivity. }
  split; [exact Hdrop |]. split.
  { intros s Hs. split.
    - intros Hblank. apply handleSubmit_run_blank; [| exact Hblank].
      rewrite Hs. exact Hhundred.
    - intros Hreason.
      rewrite (handleSubmit_run_valid env props s);
        [| rewrite Hs; exact Hhundred | exact Hreason].
      unfold refundRequest. rewrite Hs. simpl.
      match goal with
      | |- context [processRefund env ?q] =>
          destruct (processRefund env q) as [e | []]
      end; simpl; [reflexivity |].
      destruct callback; reflexivity. }
  split; [exact Hfirst |].
  rewrite Hsecond, Hfirst. destruct callback; repeat split; reflexivity.
Qed.

(** C2, the amount gate at an amount that is not a number: opened on an
    order whose amount is NaN, the dialog starts with [refundAmount] NaN;
    both comparisons of the gate are false on it, so once a reason is
    typed the confirm button sends a refund request with amount NaN
    although NaN is not in the range. *)
Theorem handleSubmit_sends_nan_amount (env : Env) :
  let s := initialState order_nan in
  isNaN (refundAmount s) = true
  /\ amount_in_range (amount (orderDetails order_nan)) (refundAmount s) = false
  /\ refund_calls
       (snd (session env order_nan
                     [TypeReason "damaged item"; ClickConfirm] s))
     = [{| req_orderId := OrderIdNumber (num 42);
           req_amount := NaN;
           req_reason := "damaged item" |}].
Proof.
  intros s. split; [reflexivity |]. split; [reflexivity |].
  subst s. unfold session, handle, handleReasonChange, handleSubmit.
  simpl. destruct (processRefund env _) as [e | []]; reflexivity.
Qed.
End RefundScenario.

Section RefundDialogExamples.
Import Js RefundDialog.
Local Open Scope string_scope.

(** C3 as worded fails on what is thrown: the service rejects with a
    plain object whose message is "card declined"; the value is no
    [Error], so the notification shows the generic message and not the
    message of the thrown value. *)
Lemma handleSubmit_fallback_hides_message :
  processRefund env_rejecting_object
    (refundRequest order42 state_fifty_damaged)
  = inl (OtherValue (Some "card declined"))
  /\ message_of (OtherValue (Some "card declined")) = Some "card declined"
  /\ toasts (trace (handleSubmit env_rejecting_object order42
                      state_fifty_damaged state_fifty_damaged))
     = [{| title := "refund.failed";
           description := "refund.errorMessage";
           variant := destructive |}].
Proof. repeat split. Qed.

(** The dialog on order 42, with 50 entered and a reason typed, and a
    service that rejects with [new Error()]: the empty message is what is
    shown. *)
Lemma handleSubmit_valid_submission_witness :
  trace (handleSubmit env_rejecting_empty_error order42
           state_fifty_damaged state_fifty_damaged)
  = [SetIsProcessing true;
     ProcessRefund {| req_orderId := OrderIdNumber (num 42);
                      req_amount := num 50;
                      req_reason := "damaged item" |};
     ConsoleError "Refund processing error:" (ErrorInstance "");
     Toast {| title := "refund.failed";
              description := "";
              variant := destructive |};
     SetIsProcessing false].
Proof.
  refine (proj2 (@handleSubmit_valid_submission env_rejecting_empty_error
                   order42 state_fifty_damaged _ _)).
  - reflexivity.
  - discriminate.
Defined.

(** The dialog on order 42 with a reason of blanks only. *)
Lemma handleSubmit_rejects_blank_reason_witness :
  RefundDialog.refund_calls
    (Js.trace (RefundDialog.handleSubmit RefundDialog.env_accepting
                 RefundDialog.order42 RefundDialog.state_fifty_blank
                 RefundDialog.state_fifty_blank)) = [].
Proof.
  refine (proj1 (handleSubmit_rejects_blank_reason RefundDialog.env_accepting
                   RefundDialog.order42 RefundDialog.state_fifty_blank _)).
  reflexivity.
Defined.

(** Order 42: 100 is positive, so typing 50 keeps the amount in range. *)
Lemma handleAmountChange_keeps_range_witness :
  RefundDialog.amount_in_range (Js.num 100)
    (RefundDialog.refundAmount
       (Js.state (RefundDialog.handleAmountChange RefundDialog.env_accepting
                    RefundDialog.order42 "50"
                    (RefundDialog.initialState RefundDialog.order42))))
  = true.
Proof.
  destruct (handleAmountChange_keeps_range RefundDialog.env_accepting
              RefundDialog.order42
              (RefundDialog.initialState RefundDialog.order42) "50")
    as [_ H].
  destruct (H eq_refl) as [Hinit Hkeep].
  exact (Hkeep Hinit).
Defined.

(** The scenario with the language's own [parseFloat] and a service that
    accepts. *)
Lemma refund_scenario_order_42_witness :
  RefundDialog.refund_calls
    (snd (RefundDialog.session RefundDialog.env_accepting RefundDialog.order42
            [RefundDialog.TypeAmount "50";
             RefundDialog.TypeReason "damaged item";
             RefundDialog.ClickConfirm]
            (RefundDialog.initialState RefundDialog.order42)))
  = [{| RefundDialog.req_orderId := RefundDialog.OrderIdNumber (Js.num 42);
        RefundDialog.req_amount := Js.num 50;
        RefundDialog.req_reason := "damaged item" |}].
Proof.
  refine (proj1 (proj2 (proj2 (proj2 (proj2
    (refund_scenario_order_42 RefundDialog.env_accepting None true
       _ _ _)))))).
  - reflexivity.
  - reflexivity.
  - reflexivity.
Defined.

(** A reason of white space outside ASCII is blank as well: the
    missing-reason notification is shown and nothing is sent. *)
Remark handleSubmit_rejects_nbsp_reason :
  trace (handleSubmit env_accepting order42 state_fifty_nbsp state_fifty_nbsp)
  = [Toast {| title := "refund.missingReason";
              description := "refund.reasonRequired";
              variant := destructive |}].
Proof. vm_compute. reflexivity. Qed.

(** C7 as worded fails once a reason has been typed: on order 42, with
    the reason "damaged item" in place, entering 150 and confirming shows
    no validation notification; 150 is dropped, a refund of the whole 100
    is sent, and the success notification is shown. *)
Lemma entering_150_with_reason_refunds_100 :
  refund_calls
    (snd (session env_accepting order42
            [TypeReason "damaged item"; TypeAmount "150"; ClickConfirm]
            (initialState order42)))
  = [{| req_orderId := OrderIdNumber (num 42);
        req_amount := num 100;
        req_reason := "damaged item" |}]
  /\ toasts
       (snd (session env_accepting order42
               [TypeReason "damaged item"; TypeAmount "150"; ClickConfirm]
               (initialState order42)))
     = [{| title := "refund.success";
           description := "refund.processed";
           variant := default |}].
Proof. split; vm_compute; reflexivity. Qed.
End RefundDialogExamples.

(** * The country selector: properties *)

Section CountrySelectorProperties.
Import Js CountrySelector.
Local Open Scope string_scope.

(** Any lower-casing function: the built-in is one. *)
Variable toLowerCase : string -> string.

(** The test the code runs on a field decides [contains_ci]. *)
Lemma contains_ci_includes (field q : string) :
  contains_ci toLowerCase field q <->
  includes (toLowerCase field) (toLowerCase q) = true.
Proof. unfold contains_ci. symmetry. apply includes_spec. Qed.

Lemma matches_entry_matches (q : string) (c : Country) :
  matches toLowerCase q c = true <-> entry_matches toLowerCase q c.
Proof.
  unfold matches, entry_matches.
  rewrite !orb_true_iff, !contains_ci_includes. tauto.
Qed.

(** C6, as the code has it: a query that is blank once trimmed (empty, or
    white space only) gives back the whole list; any other query gives
    exactly the entries whose name, Arabic name or code contains the query
    without regard to case, that is, whose lower-cased text contains the
    lower-cased query, in the order of the list; and an empty result is
    rendered as the not-found message, a non-empty one as the grid. *)
Theorem filteredCountries_spec
        (t : string -> string) (countries : list Country) (q : string) :
  (trim q = "" -> filteredCountries toLowerCase countries q = countries)
  /\ (trim q <> "" ->
      filteredCountries toLowerCase countries q
      = filter (fun c =>
                  includes (toLowerCase (name c)) (toLowerCase q)
                  || includes (toLowerCase (nameAr c)) (toLowerCase q)
                  || includes (toLowerCase (code c)) (toLowerCase q))
               countries
      /\ forall c, In c (filteredCountries toLowerCase countries q) <->
                   In c countries /\ entry_matches toLowerCase q c)
  /\ (filteredCountries toLowerCase countries q = [] ->
      renderList t toLowerCase countries q =
        NotFound (or_else (t "noCountriesFound") "لا توجد دول مطابقة"))
  /\ (filteredCountries toLowerCase countries q <> [] ->
      renderList t toLowerCase countries q
      = CountryGrid (filteredCountries toLowerCase countries q)).
Proof.
  unfold renderList, filteredCountries.
  destruct (trim q) eqn:Hq; simpl.
  - split; [reflexivity |]. split; [intros H; now elim H |].
    split; [intros -> ; reflexivity |].
    intros H. destruct countries; [now elim H | reflexivity].
  - split; [discriminate |]. split.
    + intros _. split; [reflexivity |].
      intros c. rewrite filter_In, matches_entry_matches. tauto.
    + split; [intros -> ; reflexivity |].
      intros H. destruct (filter (matches toLowerCase q) countries);
        [now elim H | reflexivity].
Qed.
End CountrySelectorProperties.

Section CountrySelectorExamples.
Import Js CountrySelector.
Local Open Scope string_scope.

(** C6 as worded fails on a query of white space: for a single space the
    code shows every entry of the list, Egypt among them, and no field of
    Egypt contains a space.  (The fields are ASCII and Arabic text, which
    [toLowerCaseAscii] lower-cases as the built-in does.) *)
Lemma filteredCountries_blank_query_shows_all :
  ~ (forall c,
       In c (filteredCountries toLowerCaseAscii sample_countries " ") <->
       In c sample_countries /\ entry_matches toLowerCaseAscii " " c).
Proof.
  intros H.
  assert (Hin : In egypt (filteredCountries toLowerCaseAscii
                            sample_countries " "))
    by (left; reflexivity).
  apply H in Hin. destruct Hin as [_ Hm].
  apply matches_entry_matches in Hm. discriminate Hm.
Qed.

(** A query made of a no-break space is blank: the whole list is shown,
    whatever the lower-casing. *)
Remark filteredCountries_nbsp_query (toLowerCase : string -> string) :
  filteredCountries toLowerCase sample_countries (utf8 160)
  = sample_countries.
Proof. reflexivity. Qed.

(** The query "eg" on the sample list is not blank; two spaces are. *)
Lemma filteredCountries_spec_witness :
  (forall c, In c (filteredCountries toLowerCaseAscii sample_countries "eg")
             <-> In c sample_countries
                 /\ entry_matches toLowerCaseAscii "eg" c)
  /\ filteredCountries toLowerCaseAscii sample_countries "  "
     = sample_countries.
Proof.
  destruct (filteredCountries_spec toLowerCaseAscii (fun key => key)
              sample_countries "eg") as (_ & H & _).
  destruct (filteredCountries_spec toLowerCaseAscii (fun key => key)
              sample_countries "  ") as (Hblank & _).
  split.
  - refine (proj2 (H _)). discriminate.
  - refine (Hblank _). reflexivity.
Defined.
End CountrySelectorExamples.

(** * The session context: properties *)

Section AuthContextProperties.
Import Js AuthContext.
Local Open Scope string_scope.

Variable sb : Supabase.

(** ** The listener *)

(** After a SIGNED_OUT event the role flag and the profile are cleared,
    whatever session comes with the event. *)
Lemma onAuthStateChange_signed_out_clears
      (session : option Session) (s : State) :
  let r := onAuthStateChange "SIGNED_OUT" session s in
  isAdmin (state r) = false /\ profile (state r) = None.
Proof.
  unfold onAuthStateChange. destruct (user_of session); split; reflexivity.
Qed.

(** C4: from every prior state, the listener run on a sign-out event
    (SIGNED_OUT, null session) leaves [isAdmin] false and [profile] null;
    it starts no fetch, so nothing started by this event sets them
    again. *)
Theorem onAuthStateChange_sign_out (s : State) :
  let r := onAuthStateChange "SIGNED_OUT" None s in
  isAdmin (state r) = false
  /\ profile (state r) = None
  /\ state r = {| session := None; user := None; loading := false;
                  isAdmin := false; profile := None; isLoading := false |}
  /\ forall task, ~ In (Started task) (trace r).
Proof.
  simpl. repeat split; try reflexivity.
  intros task H. simpl in H.
  repeat (destruct H as [H | H]; [discriminate H |]). exact H.
Qed.

(** ** [signUp] *)

(** The run of [signUp] when the pre-check returns a row. *)
Lemma signUp_run_found
      (email password : string) (metadata : option Metadata) (s : State)
      (row : Profile) :
  data (maybeSingle (select_eq sb AuthContext.email email)) = Some row ->
  signUp sb email password metadata s =
    {| outcome := inr {| result_error :=
                           Some {| message := "auth.email_already_exists" |};
                         result_data := None |};
       state := s;
       trace := [SelectIdByEmail email;
                 Toast {| title := "auth.registration_failed";
                          description := "auth.email_already_exists";
                          variant := Some destructive |}] |}.
Proof.
  intros Hfound. unfold signUp.
  assert (Herr : error (maybeSingle (select_eq sb AuthContext.email email))
                 = None).
  { revert Hfound. unfold maybeSingle.
    destruct (select_eq sb AuthContext.email email) as [e | [| r [| r' rows]]];
      simpl; congruence. }
  unfold try_catch, bind, await; simpl. rewrite Hfound, Herr. reflexivity.
Qed.

(** The run of [signUp] when the pre-check returns no row, the identity
    is created and the insert of the profile row reports an error. *)
Lemma signUp_run_insert_failure
      (email password : string) (metadata : option Metadata) (s : State)
      (created : SignUpData) (u : User) (pe : JsError) :
  data (maybeSingle (select_eq sb AuthContext.email email)) = None ->
  auth_signUp sb email password metadata = inr (created, None) ->
  data_user created = Some u ->
  insert_profile sb (new_profile sb u email metadata) = Some pe ->
  signUp sb email password metadata s =
    {| outcome := inr {| result_error :=
                           Some {| message := "auth.profile_creation_failed" |};
                         result_data := None |};
       state := s;
       trace :=
         (precheck_trace sb email
          ++ [AuthSignUp email password metadata;
              InsertProfile (new_profile sb u email metadata);
              ConsoleError "Error creating profile:" pe;
              AuthAdminDeleteUser (user_id u)]
          ++ match auth_admin_deleteUser sb (user_id u) with
             | inl deleteError =>
                 [ConsoleError
                    "Error deleting user after profile creation failure:"
                    deleteError]
             | inr _ => []
             end
          ++ [Toast {| title := "auth.registration_failed";
                       description := "auth.profile_creation_failed";
                       variant := Some destructive |}])%list |}.
Proof.
  intros Hnone Hcreated Huser Hinsert.
  unfold signUp, precheck_trace, try_catch, bind, await; simpl.
  rewrite Hnone.
  destruct (error (maybeSingle (select_eq sb AuthContext.email email)));
    simpl; rewrite Hcreated; simpl; rewrite Huser; simpl;
    rewrite Hinsert; simpl;
    destruct (auth_admin_deleteUser sb (user_id u)); reflexivity.
Qed.

(** The run of [signUp] when the pre-check returns no row and the
    creation of the identity fails, by an error returned or thrown. *)
Lemma signUp_run_creation_failure
      (email password : string) (metadata : option Metadata) (s : State)
      (e : JsError) :
  data (maybeSingle (select_eq sb AuthContext.email email)) = None ->
  (auth_signUp sb email password metadata = inl e
   \/ exists created,
        auth_signUp sb email password metadata = inr (created, Some e)) ->
  signUp sb email password metadata s =
    {| outcome := inr {| result_error := Some e; result_data := None |};
       state := s;
       trace :=
         (precheck_trace sb email
          ++ [AuthSignUp email password metadata;
              Toast {| title := "auth.registration_failed";
                       description :=
                         if str_empty (message e)
                         then "auth.unknown_error" else message e;
                       variant := Some destructive |}])%list |}.
Proof.
  intros Hnone Hfail.
  unfold signUp, precheck_trace, try_catch, bind, await; simpl.
  rewrite Hnone.
  destruct (error (maybeSingle (select_eq sb AuthContext.email email)));
    simpl; destruct Hfail as [-> | [created ->]]; reflexivity.
Qed.

(** The run of [signIn] when the sign-in call fails, by an error returned
    or thrown. *)
Lemma signIn_run_failure (email password : string) (s : State) (e : JsError) :
  (auth_signInWithPassword sb email password = inl e
   \/ auth_signInWithPassword sb email password = inr (Some e)) ->
  signIn sb email password s =
    {| outcome := inr (Some e);
       state := s;
       trace := [AuthSignInWithPassword email password;
                 Toast {| title := "auth.login_failed";
                          description := message e;
                          variant := Some destructive |}] |}.
Proof.
  intros Hfail. unfold signIn, try_catch, bind, await; simpl.
  destruct Hfail as [-> | ->]; reflexivity.
Qed.

(** The run of [refreshProfile] when the query for the profile fails. *)
Lemma refreshProfile_run_failure (s : State) (u : User) (e : JsError) :
  user s = Some u ->
  error (single (select_eq sb id (user_id u))) = Some e ->
  refreshProfile sb s s =
    {| outcome := inr tt;
       state := s;
       trace := [SelectProfileById (user_id u);
                 ConsoleError "Error fetching profile:" e] |}.
Proof.
  intros Huser Hfail.
  unfold refreshProfile, fetchProfile, try_catch, bind, await; simpl.
  rewrite Huser. simpl. rewrite Hfail. reflexivity.
Qed.

(** C1, as the code has it: when the pre-check query returns an existing
    profile row for the email, [signUp] shows the registration-failed
    notification, returns the error 'auth.email_already_exists' without
    data, and makes neither the call that creates an auth identity nor the
    insert of a profile row. *)
Theorem signUp_existing_email
        (email password : string) (metadata : option Metadata) (s : State)
        (row : Profile) :
  data (maybeSingle (select_eq sb AuthContext.email email)) = Some row ->
  let r := signUp sb email password metadata s in
  outcome r = inr {| result_error :=
                       Some {| message := "auth.email_already_exists" |};
                     result_data := None |}
  /\ toasts (trace r) = [{| title := "auth.registration_failed";
                            description := "auth.email_already_exists";
                            variant := Some destructive |}]
  /\ existsb is_identity_creation (trace r) = false
  /\ existsb is_profile_insert (trace r) = false.
Proof.
  intros Hfound r. subst r.
  rewrite (signUp_run_found email password metadata s Hfound).
  repeat split; reflexivity.
Qed.

(** C5: when the identity has been created and the insert of its profile
    row reports an error, [signUp] logs it, calls the admin deletion of
    the identity it has just created, logs and drops a failure of that
    deletion, and returns the error 'auth.profile_creation_failed' without
    data, after the registration-failed notification. *)
Theorem signUp_compensates_failed_insert
        (email password : string) (metadata : option Metadata) (s : State)
        (created : SignUpData) (u : User) (pe : JsError) :
  data (maybeSingle (select_eq sb AuthContext.email email)) = None ->
  auth_signUp sb email password metadata = inr (created, None) ->
  data_user created = Some u ->
  insert_profile sb (new_profile sb u email metadata) = Some pe ->
  let r := signUp sb email password metadata s in
  outcome r = inr {| result_error :=
                       Some {| message := "auth.profile_creation_failed" |};
                     result_data := None |}
  /\ trace r =
       (precheck_trace sb email
        ++ [AuthSignUp email password metadata;
            InsertProfile (new_profile sb u email metadata);
            ConsoleError "Error creating profile:" pe;
            AuthAdminDeleteUser (user_id u)]
        ++ match auth_admin_deleteUser sb (user_id u) with
           | inl deleteError =>
               [ConsoleError
                  "Error deleting user after profile creation failure:"
                  deleteError]
           | inr _ => []
           end
        ++ [Toast {| title := "auth.registration_failed";
                     description := "auth.profile_creation_failed";
                     variant := Some destructive |}])%list
  /\ In (AuthAdminDeleteUser (user_id u)) (trace r).
Proof.
  intros Hnone Hcreated Huser Hinsert r. subst r.
  rewrite (signUp_run_insert_failure email password metadata s
             Hnone Hcreated Huser Hinsert).
  cbn [outcome trace]. split; [reflexivity | split; [reflexivity |]].
  apply in_or_app. right. simpl. do 3 right. left. reflexivity.
Qed.
End AuthContextProperties.

Section FailureReports.
Import Js AuthContext.
Local Open Scope string_scope.

Variable sb : Supabase.

(** C9, as the code has it: a failed sign-in call, a failed creation of
    the identity and a failed insert of the profile row each end in one
    destructive notification with a title and a description, and the
    error is returned to the caller; a failed profile query in
    [refreshProfile] is written to the console and shows no
    notification. *)
Theorem failures_reported (s : State) :
  (forall email password e,
      auth_signInWithPassword sb email password = inl e
      \/ auth_signInWithPassword sb email password = inr (Some e) ->
      let r := signIn sb email password s in
      outcome r = inr (Some e)
      /\ toasts (trace r) = [{| title := "auth.login_failed";
                                description := message e;
                                variant := Some destructive |}])
  /\ (forall email password metadata e,
        data (maybeSingle (select_eq sb AuthContext.email email)) = None ->
        auth_signUp sb email password metadata = inl e
        \/ (exists created,
              auth_signUp sb email password metadata
              = inr (created, Some e)) ->
        let r := signUp sb email password metadata s in
        outcome r = inr {| result_error := Some e; result_data := None |}
        /\ toasts (trace r) =
             [{| title := "auth.registration_failed";
                 description := if str_empty (message e)
                                then "auth.unknown_error" else message e;
                 variant := Some destructive |}])
  /\ (forall email password metadata created u pe,
        data (maybeSingle (select_eq sb AuthContext.email email)) = None ->
        auth_signUp sb email password metadata = inr (created, None) ->
        data_user created = Some u ->
        insert_profile sb (new_profile sb u email metadata) = Some pe ->
        let r := signUp sb email password metadata s in
        outcome r = inr {| result_error :=
                             Some {| message :=
                                       "auth.profile_creation_failed" |};
                           result_data := None |}
        /\ toasts (trace r) =
             [{| title := "auth.registration_failed";
                 description := "auth.profile_creation_failed";
                 variant := Some destructive |}])
  /\ (forall u e,
        user s = Some u ->
        error (single (select_eq sb id (user_id u))) = Some e ->
        let r := refreshProfile sb s s in
        trace r = [SelectProfileById (user_id u);
                   ConsoleError "Error fetching profile:" e]
        /\ toasts (trace r) = []
        /\ state r = s).
Proof.
  split; [| split; [| split]].
  - intros email password e Hfail r. subst r.
    rewrite (signIn_run_failure sb email password s Hfail).
    split; reflexivity.
  - intros email password metadata e Hnone Hfail r. subst r.
    rewrite (signUp_run_creation_failure sb email password metadata s
               Hnone Hfail).
    unfold precheck_trace. simpl.
    destruct (error (maybeSingle _)); split; reflexivity.
  - intros email password metadata created u pe Hnone Hcreated Hu Hpe r.
    subst r.
    rewrite (signUp_run_insert_failure sb email password metadata s
               Hnone Hcreated Hu Hpe).
    unfold precheck_trace. simpl.
    destruct (error (maybeSingle _)); simpl;
      destruct (auth_admin_deleteUser sb (user_id u)); split; reflexivity.
  - intros u e Huser Hfail r. subst r.
    rewrite (refreshProfile_run_failure sb s Huser Hfail).
    repeat split.
Qed.
End FailureReports.

Section AuthContextExamples.
Import Js AuthContext.
Local Open Scope string_scope.

(** C1 as worded fails when the pre-check query itself fails: Alice's
    profile row exists, the query for her email returns an error, [signUp]
    logs it and goes on, asks for a new identity with the same email and
    inserts a second profile row, and reports success. *)
Lemma signUp_unchecked_when_query_fails :
  (exists row, In row (AuthContext.profiles AuthContext.sb_select_down)
               /\ AuthContext.email row = "alice@example.com")
  /\ existsb AuthContext.is_identity_creation
       (Js.trace (AuthContext.signUp AuthContext.sb_select_down
                    "alice@example.com" "secret" None
                    AuthContext.initialState)) = true
  /\ existsb AuthContext.is_profile_insert
       (Js.trace (AuthContext.signUp AuthContext.sb_select_down
                    "alice@example.com" "secret" None
                    AuthContext.initialState)) = true
  /\ Js.outcome (AuthContext.signUp AuthContext.sb_select_down
                   "alice@example.com" "secret" None
                   AuthContext.initialState) =
       inr {| AuthContext.result_error := None;
              AuthContext.result_data :=
                Some {| AuthContext.data_user :=
                          Some {| AuthContext.user_id := "u2" |} |} |}.
Proof.
  split; [| repeat split].
  exists AuthContext.row_alice. split; [left |]; reflexivity.
Qed.

(** C9 as worded fails for [refreshProfile] and [signOut]: with Alice
    signed in, a profile query that fails leaves only a console line, and a
    sign-out call that returns an error leaves nothing at all; neither shows
    a notification. *)
Lemma refreshProfile_and_signOut_fail_silently :
  (AuthContext.error
     (AuthContext.single
        (AuthContext.select_eq AuthContext.sb_select_down AuthContext.id "u1"))
   = Some {| AuthContext.message := "TypeError: Failed to fetch" |}
   /\ Js.trace (AuthContext.refreshProfile AuthContext.sb_select_down
                  AuthContext.state_alice AuthContext.state_alice)
      = [AuthContext.SelectProfileById "u1";
         AuthContext.ConsoleError "Error fetching profile:"
           {| AuthContext.message := "TypeError: Failed to fetch" |}]
   /\ AuthContext.toasts
        (Js.trace (AuthContext.refreshProfile AuthContext.sb_select_down
                     AuthContext.state_alice AuthContext.state_alice)) = [])
  /\ (AuthContext.auth_signOut AuthContext.sb_auth_down
      = inr (Some {| AuthContext.message := "Auth session missing!" |})
      /\ Js.trace (AuthContext.signOut AuthContext.sb_auth_down
                     AuthContext.state_alice)
         = [AuthContext.AuthSignOut]
      /\ AuthContext.toasts
           (Js.trace (AuthContext.signOut AuthContext.sb_auth_down
                        AuthContext.state_alice)) = []).
Proof. repeat split. Qed.

(** Alice signs up again while the backend is healthy. *)
Lemma signUp_existing_email_witness :
  existsb AuthContext.is_identity_creation
    (Js.trace (AuthContext.signUp AuthContext.sb_healthy
                 "alice@example.com" "secret" None AuthContext.initialState))
  = false.
Proof.
  refine (proj1 (proj2 (proj2
    (signUp_existing_email AuthContext.sb_healthy "alice@example.com" "secret"
       None AuthContext.initialState (row := AuthContext.row_alice) _)))).
  reflexivity.
Defined.

(** Bob signs up on a backend that refuses the profile row and the
    deletion. *)
Lemma signUp_compensates_failed_insert_witness :
  In (AuthContext.AuthAdminDeleteUser "u2")
     (Js.trace (AuthContext.signUp AuthContext.sb_insert_denied
                  "bob@example.com" "secret" None AuthContext.initialState)).
Proof.
  refine (proj2 (proj2
    (signUp_compensates_failed_insert AuthContext.sb_insert_denied
       "bob@example.com" "secret" None AuthContext.initialState
       (created := {| AuthContext.data_user :=
                        Some {| AuthContext.user_id := "u2" |} |})
       (u := {| AuthContext.user_id := "u2" |})
       (pe := {| AuthContext.message :=
                   "new row violates row-level security policy" |})
       _ _ _ _))); reflexivity.
Defined.

(** A sign-in that the auth service refuses. *)
Lemma failures_reported_witness :
  AuthContext.toasts
    (Js.trace (AuthContext.signIn AuthContext.sb_auth_down
                 "alice@example.com" "wrong" AuthContext.initialState))
  = [{| AuthContext.title := "auth.login_failed";
        AuthContext.description := "Invalid login credentials";
        AuthContext.variant := Some AuthContext.destructive |}].
Proof.
  refine (proj2 (proj1
    (failures_reported AuthContext.sb_auth_down AuthContext.initialState)
    "alice@example.com" "wrong"
    {| AuthContext.message := "Invalid login credentials" |} _)).
  right. reflexivity.
Defined.

(** A fetch started by an earlier event can complete after the sign-out:
    the profile is then set again although no user is signed in. *)
Remark late_fetch_restores_profile :
  profile (state (complete sb_healthy (FetchProfile "u1")
                    (state (onAuthStateChange "SIGNED_OUT" None state_alice))))
  = Some row_alice.
Proof. vm_compute. reflexivity. Qed.
End AuthContextExamples.

(** * The refund dialog: what every run and every session does *)

Section RefundDialogRuns.
Import Js RefundDialog.
Local Open Scope string_scope.

Variable env : Env.
Variable props : Props.

Lemma refund_calls_app (a b : list Event) :
  refund_calls (a ++ b) = (refund_calls a ++ refund_calls b)%list.
Proof. unfold refund_calls. apply flat_map_app. Qed.

(** Positive amounts are above every amount that is zero, negative or
    not a number: [0 < v <= total] needs [0 < total]. *)
Lemma in_range_positive_total (total v : number) :
  amount_in_range total v = true -> lt zero total = true.
Proof.
  unfold amount_in_range, lt, le, SFltb, SFleb.
  destruct v as [sv | sv | | sv mv ev], total as [st | st | | st mt et];
    simpl; try discriminate; try reflexivity;
    try (destruct sv; discriminate);
    try (destruct sv, st; simpl; (discriminate || reflexivity)).
Qed.

(** X1: whatever the state and whatever the refund service does, a click
    on confirm never throws, shows exactly one notification, sends at most
    one refund request, and leaves the entered amount and reason as they
    were. *)
Theorem handleSubmit_one_notification (s : State) :
  let r := handleSubmit env props s s in
  outcome r = inr tt
  /\ List.length (toasts (trace r)) = 1
  /\ List.length (refund_calls (trace r)) <= 1
  /\ refundAmount (state r) = refundAmount s
  /\ reason (state r) = reason s.
Proof.
  unfold handleSubmit.
  destruct (le (refundAmount s) zero || gt (refundAmount s) _);
    [simpl; auto |].
  destruct (str_empty (trim (reason s))); [simpl; auto |].
  simpl. destruct (processRefund env _) as [e | []]; simpl; [auto |].
  destruct (onSuccess props); simpl; auto.
Qed.

(** X2: the dialog is closed by a confirm exactly when both tests passed
    and the refund service accepted the request; [onSuccess] is called
    exactly then, when it was given.  A failed validation and a rejected
    refund both leave the dialog open. *)
Theorem handleSubmit_closes_iff_accepted (s : State) :
  let r := handleSubmit env props s s in
  (In OnClose (trace r) <->
   le (refundAmount s) zero
   || gt (refundAmount s) (amount (orderDetails props)) = false
   /\ trim (reason s) <> ""
   /\ processRefund env
        {| req_orderId := orderId (orderDetails props);
           req_amount := refundAmount s;
           req_reason := reason s |} = inr tt)
  /\ (In OnSuccess (trace r) <->
      le (refundAmount s) zero
      || gt (refundAmount s) (amount (orderDetails props)) = false
      /\ trim (reason s) <> ""
      /\ processRefund env
           {| req_orderId := orderId (orderDetails props);
              req_amount := refundAmount s;
              req_reason := reason s |} = inr tt
      /\ onSuccess props = true).
Proof.
  unfold handleSubmit, refundRequest.
  destruct (le (refundAmount s) zero || gt (refundAmount s) _) eqn:Hgate.
  { simpl. intuition discriminate. }
  destruct (trim (reason s)) eqn:Hreason.
  { simpl. intuition (discriminate || congruence). }
  simpl. destruct (processRefund env _) as [e | []] eqn:Hsvc; simpl.
  { intuition discriminate. }
  destruct (onSuccess props); simpl; intuition discriminate.
Qed.

(** X3: when the order amount is not positive (zero, negative, or not a
    number), no text typed into the amount field is ever accepted: the
    handler changes nothing and records nothing. *)
Theorem handleAmountChange_inert (s : State) (text : string) :
  lt zero (amount (orderDetails props)) = false ->
  handleAmountChange env props text s = ret tt s.
Proof.
  intros Htotal. rewrite handleAmountChange_run.
  destruct (amount_in_range _ (parseFloat env text)) eqn:Hv; [| reflexivity].
  apply in_range_positive_total in Hv. congruence.
Qed.

(** X4: on an order with a positive amount, every refund request sent
    during a session with the dialog, whatever the user does and in
    whatever order, carries the order's id, an amount in
    [0 < amount <= orderDetails.amount], and a reason that is not blank. *)
Theorem session_requests_valid (actions : list Action) (r : RefundRequest) :
  lt zero (amount (orderDetails props)) = true ->
  In r (refund_calls (snd (session env props actions (initialState props)))) ->
  req_orderId r = orderId (orderDetails props)
  /\ amount_in_range (amount (orderDetails props)) (req_amount r) = true
  /\ trim (req_reason r) <> "".
Proof.
  intros Htotal.
  assert (Hinit : amount_in_range (amount (orderDetails props))
                    (refundAmount (initialState props)) = true).
  { unfold amount_in_range. simpl. rewrite Htotal. simpl.
    apply le_refl, (lt_not_nan _ _ Htotal). }
  revert Hinit. generalize (initialState props) as s.
  induction actions as [| a rest IH]; intros s Hs Hin; [now elim Hin |].
  simpl in Hin.
  destruct (session env props rest (state (handle env props a s)))
    as [s' tr] eqn:Hrest.
  simpl in Hin. rewrite refund_calls_app in Hin.
  apply in_app_or in Hin as [Hnow | Hlater].
  - destruct a as [text | text |]; simpl in Hnow.
    + rewrite handleAmountChange_run in Hnow.
      destruct (amount_in_range _ (parseFloat env text)); now elim Hnow.
    + now elim Hnow.
    + destruct (trim (reason s)) eqn:Hreason.
      * rewrite (handleSubmit_run_blank env props s Hs Hreason) in Hnow.
        now elim Hnow.
      * assert (Hne : trim (reason s) <> "") by (rewrite Hreason; discriminate).
        rewrite (handleSubmit_run_valid env props s Hs Hne) in Hnow.
        simpl in Hnow. destruct Hnow as [<- | Hrest'].
        { simpl. auto. }
        destruct (processRefund env _) as [e | []]; simpl in Hrest';
          [now elim Hrest' |].
        destruct (onSuccess props); now elim Hrest'.
  - apply (IH (state (handle env props a s))).
    + change (state (handle env props a s))
        with (fst (session env props [a] s)).
      apply session_keeps_range, Hs.
    + rewrite Hrest. exact Hlater.
Qed.

(** X5: an order whose amount is zero or negative can never be refunded
    through the dialog: no sequence of user actions sends a request. *)
Theorem nonpositive_order_never_refunded (actions : list Action) :
  le (amount (orderDetails props)) zero = true ->
  refund_calls (snd (session env props actions (initialState props))) = [].
Proof.
  intros Htotal.
  assert (Hpos : lt zero (amount (orderDetails props)) = false).
  { destruct (le_not_nan _ _ Htotal) as [Hn _].
    change (lt zero (amount (orderDetails props)))
      with (gt (amount (orderDetails props)) zero).
    rewrite (gt_not_le (amount (orderDetails props)) zero Hn eq_refl), Htotal.
    reflexivity. }
  assert (Hinit : refundAmount (initialState props)
                  = amount (orderDetails props)) by reflexivity.
  revert Hinit. generalize (initialState props) as s.
  induction actions as [| a rest IH]; intros s Hs; [reflexivity |].
  simpl.
  destruct (session env props rest (state (handle env props a s)))
    as [s' tr] eqn:Hrest.
  simpl. rewrite refund_calls_app.
  assert (Hstep : refund_calls (trace (handle env props a s)) = []
                  /\ refundAmount (state (handle env props a s))
                     = amount (orderDetails props)).
  { destruct a as [text | text |]; simpl.
    - rewrite handleAmountChange_run.
      destruct (amount_in_range _ (parseFloat env text)) eqn:Hv; [| auto].
      apply in_range_positive_total in Hv. congruence.
    - auto.
    - unfold handleSubmit. rewrite Hs, Htotal. simpl. auto. }
  destruct Hstep as [-> Hkeep]. simpl.
  specialize (IH _ Hkeep). now rewrite Hrest in IH.
Qed.
End RefundDialogRuns.

(** * The country selector: search behaviour and the menu effect *)

Section CountrySearch.
Import Js CountrySelector.
Local Open Scope string_scope.

(** Any lower-casing function: the built-in is one. *)
Variable toLowerCase : string -> string.

Lemma append_empty_r (s : string) : s ++ "" = s.
Proof. induction s as [| c s IH]; simpl; [| rewrite IH]; reflexivity. Qed.

Lemma includes_refl (s : string) : includes s s = true.
Proof.
  apply includes_spec. exists "", "". simpl. now rewrite append_empty_r.
Qed.

Lemma filteredCountries_incl (countries : list Country) (q : string) :
  incl (filteredCountries toLowerCase countries q) countries.
Proof.
  unfold filteredCountries. destruct (str_empty (trim q)).
  - apply incl_refl.
  - intros c Hc. apply filter_In in Hc. tauto.
Qed.

(** X7: the letter case of the query does not matter: two queries that
    the built-in lower-cases to the same text, both blank or both not
    blank, give the same list. *)
Theorem filteredCountries_case_blind
        (countries : list Country) (q1 q2 : string) :
  toLowerCase q1 = toLowerCase q2 ->
  str_empty (trim q1) = str_empty (trim q2) ->
  filteredCountries toLowerCase countries q1
  = filteredCountries toLowerCase countries q2.
Proof.
  intros Hq Hblank. unfold filteredCountries.
  rewrite Hblank. destruct (str_empty (trim q2)); [reflexivity |].
  apply filter_ext. intros c. unfold matches. now rewrite Hq.
Qed.

(** X8: every entry of the list is found by its own name, Arabic name or
    code, typed in any letter case: by any query that the built-in
    lower-cases to the lower-cased name, Arabic name or code. *)
Theorem filteredCountries_finds_entry
        (countries : list Country) (c : Country) (q : string) :
  In c countries ->
  toLowerCase q = toLowerCase (name c)
  \/ toLowerCase q = toLowerCase (nameAr c)
  \/ toLowerCase q = toLowerCase (code c) ->
  In c (filteredCountries toLowerCase countries q).
Proof.
  intros Hin Hq. unfold filteredCountries.
  destruct (str_empty (trim q)); [exact Hin |].
  apply filter_In. split; [exact Hin |].
  unfold matches. rewrite !orb_true_iff.
  destruct Hq as [-> | [-> | ->]]; auto using includes_refl.
Qed.

(** X9: the favourites row is the head of the list: the first eight
    entries in order, or the whole list when it has fewer; the search
    query has no part in it. *)
Theorem favoriteCountries_head (countries : list Country) :
  (exists rest, countries = (favoriteCountries countries ++ rest)%list)
  /\ List.length (favoriteCountries countries)
     = Nat.min 8 (List.length countries)
  /\ (List.length countries <= 8 -> favoriteCountries countries = countries).
Proof.
  unfold favoriteCountries. split; [| split].
  - exists (skipn 8 countries). symmetry. apply firstn_skipn.
  - apply length_firstn.
  - apply firstn_all2.
Qed.

(** X10: whatever the query, a click can only select a code of the list:
    every button that calls [handleCountrySelect] carries the code of an
    entry of [countries]. *)
Theorem selectableCodes_in_list
        (t : string -> string) (countries : list Country) (q code0 : string) :
  In code0 (selectableCodes t toLowerCase countries q) ->
  exists c, In c countries /\ code c = code0.
Proof.
  unfold selectableCodes, renderList, favoriteCountries.
  intros H. apply in_app_or in H as [H | H].
  - apply in_map_iff in H as (c & Hc & Hin).
    exists c. split; [| exact Hc].
    rewrite <- (firstn_skipn 8 countries). apply in_or_app. now left.
  - destruct (0 <? List.length (filteredCountries toLowerCase countries q))%nat;
      [| now elim H].
    apply in_map_iff in H as (c & Hc & Hin).
    exists c. split; [| exact Hc].
    apply (filteredCountries_incl countries q c Hin).
Qed.

(** X11: the effect run with the menu closed sets one timer, 300 ms, and
    that timer clears the search text whenever it fires, whatever has
    happened meanwhile: its callback tests the [countryMenuOpen] it
    captured (false), so a query typed after the menu was opened again is
    cleared as well, and the full list is shown. *)
Theorem menu_close_timer_clears_query
        (isMobile : bool) (snap s : State) (countries : list Country)
        (typed : string) :
  timers (trace (menuEffect false isMobile snap s))
  = [(ResetSearch false, 300)]
  /\ forall callback delay,
       In (callback, delay) (timers (trace (menuEffect false isMobile snap s))) ->
       let later := state (handleSearchInputChange typed s) in
       countrySearchQuery later = typed
       /\ countrySearchQuery (state (fire callback later)) = ""
       /\ filteredCountries toLowerCase countries
            (countrySearchQuery (state (fire callback later))) = countries.
Proof.
  split; [reflexivity |].
  intros callback delay [H | []]. injection H as <- <-.
  repeat split.
Qed.

(** X12: the effect run with the menu open sets one timer that focuses
    the search input, after 400 ms on a mobile screen and 300 ms
    otherwise; it focuses only if the input was held when the effect ran,
    and it never touches the search text. *)
Theorem menu_open_timer_focuses
        (isMobile : bool) (snap s : State) :
  timers (trace (menuEffect true isMobile snap s))
  = [(FocusInput (searchInputRef snap), if isMobile then 400 else 300)]
  /\ animateIn (state (menuEffect true isMobile snap s)) = true
  /\ forall callback delay,
       In (callback, delay) (timers (trace (menuEffect true isMobile snap s))) ->
       state (fire callback s) = s
       /\ trace (fire callback s)
          = if searchInputRef snap then [Focus] else [].
Proof.
  split; [reflexivity |]. split; [reflexivity |].
  intros callback delay [H | []]. injection H as <- <-.
  simpl. destruct (searchInputRef snap); split; reflexivity.
Qed.
End CountrySearch.

(** * The session context: what every run does *)

(** Every path of [signUp]: the answer of the pre-check, of the identity
    creation, of the insert and of the compensating delete. *)
Ltac signUp_paths sb email password metadata :=
  unfold AuthContext.signUp, AuthContext.precheck_trace,
    Js.try_catch, Js.bind, Js.await; simpl;
  destruct (AuthContext.maybeSingle
              (AuthContext.select_eq sb AuthContext.email email))
    as [[found |] [checkError |]]; simpl;
  try (destruct (AuthContext.auth_signUp sb email password metadata)
        as [thrown | [created [signUpError |]]] eqn:Hcreated; simpl;
       try (destruct (AuthContext.data_user created) as [u |] eqn:Huser;
            simpl;
            try (destruct (AuthContext.insert_profile sb
                             (AuthContext.new_profile sb u email metadata))
                  as [profileError |] eqn:Hinsert; simpl;
                 try (destruct (AuthContext.auth_admin_deleteUser sb
                                  (AuthContext.user_id u))
                       as [deleteError | deleted] eqn:Hdelete; simpl)))).

Section AuthContextRuns.
Import Js AuthContext.
Local Open Scope string_scope.

Variable sb : Supabase.

(** X13: [signUp] never rejects and never writes the provider's state.
    On every path it shows exactly one notification, and that one is the
    destructive kind exactly when an error is returned; data is returned
    exactly when no error is. *)
Theorem signUp_always_resolves
        (email password : string) (metadata : option Metadata) (s : State) :
  let r := signUp sb email password metadata s in
  state r = s
  /\ exists result m,
       outcome r = inr result
       /\ toasts (trace r) = [m]
       /\ (variant m = Some destructive <-> result_error result <> None)
       /\ (result_data result <> None <-> result_error result = None).
Proof.
  signUp_paths sb email password metadata;
    (split; [reflexivity |]); eexists; eexists;
    (split; [reflexivity |]); (split; [reflexivity |]);
    simpl; split; split; intros H; congruence.
Qed.

(** X14: the only profile row [signUp] ever writes is a plain user's: it
    belongs to the identity the backend has just created without error,
    carries the email signed up with and the time of the call, and its
    [user_type] is 'user'; it is written only when the pre-check found no
    row. *)
Theorem signUp_inserts_plain_user_row
        (email password : string) (metadata : option Metadata) (s : State)
        (row : Profile) :
  In (InsertProfile row) (trace (signUp sb email password metadata s)) ->
  user_type row = "user"
  /\ AuthContext.email row = email
  /\ created_at row = now sb
  /\ data (maybeSingle (select_eq sb AuthContext.email email)) = None
  /\ exists created u,
       auth_signUp sb email password metadata = inr (created, None)
       /\ data_user created = Some u
       /\ id row = user_id u.
Proof.
  signUp_paths sb email password metadata; intros H;
    repeat (destruct H as [H | H]; [try discriminate H |]);
    try (now elim H);
    injection H as <-; repeat split; eauto.
Qed.

(** X15: [signUp] asks for the deletion of an identity only after the
    insert of that identity's profile row has reported an error, and only
    for the identity created in the same call. *)
Theorem signUp_deletes_only_own_identity
        (email password : string) (metadata : option Metadata) (s : State)
        (userId : string) :
  In (AuthAdminDeleteUser userId)
     (trace (signUp sb email password metadata s)) ->
  exists created u pe,
    auth_signUp sb email password metadata = inr (created, None)
    /\ data_user created = Some u
    /\ userId = user_id u
    /\ insert_profile sb (new_profile sb u email metadata) = Some pe.
Proof.
  signUp_paths sb email password metadata; intros H;
    repeat (destruct H as [H | H]; [try discriminate H |]);
    try (now elim H);
    injection H as <-; eauto 10.
Qed.

(** X16: when the pre-check finds no row, the identity is created and its
    profile row is written, [signUp] returns the created data without
    error after the success notification; nothing is deleted. *)
Theorem signUp_success
        (email password : string) (metadata : option Metadata) (s : State)
        (created : SignUpData) (u : User) :
  data (maybeSingle (select_eq sb AuthContext.email email)) = None ->
  auth_signUp sb email password metadata = inr (created, None) ->
  data_user created = Some u ->
  insert_profile sb (new_profile sb u email metadata) = None ->
  signUp sb email password metadata s =
    {| outcome := inr {| result_error := None;
                         result_data := Some created |};
       state := s;
       trace :=
         (precheck_trace sb email
          ++ [AuthSignUp email password metadata;
              InsertProfile (new_profile sb u email metadata);
              Toast {| title := "auth.registration_success";
                       description := "auth.account_created";
                       variant := None |}])%list |}.
Proof.
  intros Hnone Hcreated Huser Hinsert.
  unfold signUp, precheck_trace, try_catch, bind, await; simpl.
  rewrite Hnone.
  destruct (error (maybeSingle (select_eq sb AuthContext.email email)));
    simpl; rewrite Hcreated; simpl; rewrite Huser; simpl;
    rewrite Hinsert; reflexivity.
Qed.

(** X17: when the backend creates the identity without error but returns
    no user with it, [signUp] writes no profile row and still reports
    success. *)
Theorem signUp_without_user_skips_profile
        (email password : string) (metadata : option Metadata) (s : State)
        (created : SignUpData) :
  data (maybeSingle (select_eq sb AuthContext.email email)) = None ->
  auth_signUp sb email password metadata = inr (created, None) ->
  data_user created = None ->
  let r := signUp sb email password metadata s in
  outcome r = inr {| result_error := None; result_data := Some created |}
  /\ existsb is_profile_insert (trace r) = false
  /\ toasts (trace r) = [{| title := "auth.registration_success";
                            description := "auth.account_created";
                            variant := None |}].
Proof.
  intros Hnone Hcreated Huser.
  unfold signUp, try_catch, bind, await; simpl.
  rewrite Hnone.
  destruct (error (maybeSingle (select_eq sb AuthContext.email email)));
    simpl; rewrite Hcreated; simpl; rewrite Huser; simpl;
    repeat split.
Qed.

(** X18: [signIn] never rejects and never writes the provider's state.
    It returns no error exactly when the backend call resolves without
    one, and shows a notification, the login-failed one with the error's
    message, exactly when it returns an error. *)
Theorem signIn_always_resolves (email password : string) (s : State) :
  let r := signIn sb email password s in
  state r = s
  /\ exists result,
       outcome r = inr result
       /\ (result = None <->
           auth_signInWithPassword sb email password = inr None)
       /\ toasts (trace r) =
            match result with
            | Some e => [{| title := "auth.login_failed";
                            description := message e;
                            variant := Some destructive |}]
            | None => []
            end.
Proof.
  unfold signIn, try_catch, bind, await; simpl.
  destruct (auth_signInWithPassword sb email password) as [e | [e |]];
    simpl; (split; [reflexivity |]); eexists;
    (split; [reflexivity |]); split; try reflexivity;
    split; intros H; congruence.
Qed.
End AuthContextRuns.

Section AuthContextProfile.
Import Js AuthContext.
Local Open Scope string_scope.

Variable sb : Supabase.

(** [.single()] hands out a row only when the query worked and exactly
    that row of the table has the asked id. *)
Lemma single_found (userId : string) (row : Profile) :
  data (single (select_eq sb id userId)) = Some row ->
  error (single (select_eq sb id userId)) = None
  /\ select_fault sb = None
  /\ In row (profiles sb)
  /\ id row = userId.
Proof.
  unfold select_eq. destruct (select_fault sb) as [e |]; simpl;
    [discriminate |].
  destruct (filter _ (profiles sb)) as [| r [| r' rows]] eqn:Hrows; simpl;
    try discriminate.
  intros H. injection H as <-.
  assert (Hin : In r (filter (fun x => String.eqb (id x) userId) (profiles sb)))
    by (rewrite Hrows; now left).
  apply filter_In in Hin as [Hin Heq]. apply String.eqb_eq in Heq. auto.
Qed.

Lemma single_data_or_error (userId : string) :
  (exists row, single (select_eq sb id userId)
               = {| data := Some row; error := None |})
  \/ (exists e, single (select_eq sb id userId)
                = {| data := None; error := Some e |}).
Proof.
  unfold single. destruct (select_eq sb id userId) as [e | [| r [| r' rows]]];
    eauto.
Qed.

(** What [.single()] answers, by the state of the table and of the
    connection. *)
Lemma single_cases (userId : string) :
  (forall row,
      select_fault sb = None ->
      filter (fun r => String.eqb (id r) userId) (profiles sb) = [row] ->
      single (select_eq sb id userId) = {| data := Some row; error := None |})
  /\ (forall e,
        select_fault sb = Some e ->
        single (select_eq sb id userId) = {| data := None; error := Some e |})
  /\ (select_fault sb = None ->
      (forall row,
          filter (fun r => String.eqb (id r) userId) (profiles sb) <> [row]) ->
      single (select_eq sb id userId)
      = {| data := None;
           error := Some {| message :=
             "JSON object requested, multiple (or no) rows returned" |} |}).
Proof.
  unfold select_eq. split; [| split].
  - intros row -> ->. reflexivity.
  - intros e ->. reflexivity.
  - intros -> Hrows.
    destruct (filter _ (profiles sb)) as [| r [| r' rows]];
      try reflexivity.
    now elim (Hrows r).
Qed.

(** X19: [fetchProfile] never rejects and writes no cell but [profile].
    When the query works and exactly one row of the table has the asked
    id, the profile becomes that row.  When the query fails, or no row or
    several rows have that id, the error goes to the console and the
    profile that was there stays. *)
Theorem fetchProfile_sets_or_keeps (userId : string) (s : State) :
  outcome (fetchProfile sb userId s) = inr tt
  /\ (forall row,
        select_fault sb = None ->
        filter (fun r => String.eqb (id r) userId) (profiles sb) = [row] ->
        fetchProfile sb userId s =
          {| outcome := inr tt;
             state := {| session := session s; user := user s;
                         loading := loading s; isAdmin := isAdmin s;
                         profile := Some row; isLoading := isLoading s |};
             trace := [SelectProfileById userId; SetProfile (Some row)] |})
  /\ (forall e,
        select_fault sb = Some e ->
        fetchProfile sb userId s =
          {| outcome := inr tt; state := s;
             trace := [SelectProfileById userId;
                       ConsoleError "Error fetching profile:" e] |})
  /\ (select_fault sb = None ->
      (forall row,
          filter (fun r => String.eqb (id r) userId) (profiles sb) <> [row]) ->
      fetchProfile sb userId s =
        {| outcome := inr tt; state := s;
           trace := [SelectProfileById userId;
                     ConsoleError "Error fetching profile:"
                       {| message :=
                            "JSON object requested, multiple (or no) rows returned" |}] |}).
Proof.
  destruct (single_cases userId) as (Hone & Hfault & Hmany).
  unfold fetchProfile, try_catch, bind, await; simpl.
  split; [| split; [| split]].
  - destruct (single (select_eq sb id userId)) as [[row |] [e |]];
      reflexivity.
  - intros row Hf Hrows. rewrite (Hone row Hf Hrows). reflexivity.
  - intros e Hf. rewrite (Hfault e Hf). reflexivity.
  - intros Hf Hrows. rewrite (Hmany Hf Hrows). reflexivity.
Qed.

(** X20: [checkUserRole] makes no call for an empty id.  For any other id
    it never rejects and writes no cell but [isAdmin]: when the query works
    and exactly one row has that id, the flag becomes whether the row's
    [user_type] is 'admin'; when the query fails, or no row or several rows
    have that id, the error goes to the console and the flag that was
    there stays.  So the flag is never raised without a row of type 'admin'
    for that id. *)
Theorem checkUserRole_sets_or_keeps (userId : string) (s : State) :
  outcome (checkUserRole sb userId s) = inr tt
  /\ (userId = "" -> checkUserRole sb userId s = ret tt s)
  /\ (forall row,
        userId <> "" ->
        select_fault sb = None ->
        filter (fun r => String.eqb (id r) userId) (profiles sb) = [row] ->
        checkUserRole sb userId s =
          {| outcome := inr tt;
             state := {| session := session s; user := user s;
                         loading := loading s;
                         isAdmin := String.eqb (user_type row) "admin";
                         profile := profile s; isLoading := isLoading s |};
             trace := [SelectUserTypeById userId;
                       SetIsAdmin (String.eqb (user_type row) "admin")] |})
  /\ (forall e,
        userId <> "" ->
        select_fault sb = Some e ->
        checkUserRole sb userId s =
          {| outcome := inr tt; state := s;
             trace := [SelectUserTypeById userId;
                       ConsoleError "Error checking user role:" e] |})
  /\ (userId <> "" ->
      select_fault sb = None ->
      (forall row,
          filter (fun r => String.eqb (id r) userId) (profiles sb) <> [row]) ->
      checkUserRole sb userId s =
        {| outcome := inr tt; state := s;
           trace := [SelectUserTypeById userId;
                     ConsoleError "Error checking user role:"
                       {| message :=
                            "JSON object requested, multiple (or no) rows returned" |}] |})
  /\ (isAdmin (state (checkUserRole sb userId s)) = true ->
      isAdmin s = true
      \/ exists row, In row (profiles sb) /\ id row = userId
                     /\ user_type row = "admin").
Proof.
  destruct (single_cases userId) as (Hone & Hfault & Hmany).
  unfold checkUserRole. destruct (str_empty userId) eqn:Hid.
  { apply str_empty_true in Hid. subst userId.
    repeat split; try (intros; congruence); auto. }
  assert (Hne : userId <> "")
    by (intros ->; discriminate Hid).
  unfold try_catch, bind, await; simpl.
  split; [| split; [| split; [| split; [| split]]]].
  - destruct (single (select_eq sb id userId)) as [[row |] [e |]];
      reflexivity.
  - intros H. now elim Hne.
  - intros row _ Hf Hrows. rewrite (Hone row Hf Hrows). reflexivity.
  - intros e _ Hf. rewrite (Hfault e Hf). reflexivity.
  - intros _ Hf Hrows. rewrite (Hmany Hf Hrows). reflexivity.
  - destruct (single (select_eq sb id userId)) as [[row |] [e |]] eqn:Hq;
      simpl; try (intros H; (discriminate H || (left; exact H))).
    destruct (@single_found userId row) as (_ & _ & Hin & Hrow);
      [now rewrite Hq |].
    intros H. right. exists row. apply String.eqb_eq in H. auto.
Qed.

(** X21: [refreshProfile] never rejects; it keeps the session, the user,
    the role flag and both loading flags, and when no user is signed in it
    makes no call at all and keeps the profile as well. *)
Theorem refreshProfile_touches_profile_only (s : State) :
  let r := refreshProfile sb s s in
  outcome r = inr tt
  /\ session (state r) = session s
  /\ user (state r) = user s
  /\ isAdmin (state r) = isAdmin s
  /\ loading (state r) = loading s
  /\ isLoading (state r) = isLoading s
  /\ (user s = None -> state r = s /\ trace r = []).
Proof.
  unfold refreshProfile. destruct (user s) as [u |] eqn:Hu.
  - unfold fetchProfile, try_catch, bind, await; simpl.
    destruct (single (select_eq sb id (user_id u))) as [[row |] [e |]];
      simpl; repeat split; auto; discriminate.
  - simpl. repeat split; auto.
Qed.

(** X22: a session change that is not a sign-out leaves the profile and
    the role flag alone, also when it comes with no session: the listener
    then clears [session] and [user] and keeps the previous user's profile
    and admin flag.  Both loading flags end false on every event. *)
Theorem onAuthStateChange_keeps_profile
        (event : string) (session0 : option Session) (s : State) :
  String.eqb event "SIGNED_OUT" = false ->
  let r := onAuthStateChange event session0 s in
  profile (state r) = profile s
  /\ isAdmin (state r) = isAdmin s
  /\ session (state r) = session0
  /\ user (state r) = user_of session0
  /\ loading (state r) = false
  /\ isLoading (state r) = false.
Proof.
  intros Hevent. unfold onAuthStateChange. rewrite Hevent.
  destruct (user_of session0) eqn:Hu; simpl; rewrite ?Hu; repeat split.
Qed.

(** X23: the two fetches the listener starts do not depend on the order
    in which they complete: the provider ends in the same state either
    way. *)
Theorem completions_commute (a b : string) (s : State) :
  state (complete sb (CheckUserRole b)
           (state (complete sb (FetchProfile a) s)))
  = state (complete sb (FetchProfile a)
             (state (complete sb (CheckUserRole b) s))).
Proof.
  unfold complete, fetchProfile, checkUserRole.
  destruct (str_empty b); [reflexivity |].
  unfold try_catch, bind, await; simpl.
  destruct (single (select_eq sb id a)) as [[ra |] [ea |]]; simpl;
    destruct (single (select_eq sb id b)) as [[rb |] [eb |]]; reflexivity.
Qed.

(** X24: a session change that carries a user starts the profile fetch
    and the role check for that user's id.  When the table holds exactly
    one row of that id and queries work, then once both have completed the
    provider holds that user, that row as profile, and the admin flag says
    whether the row's [user_type] is 'admin', whatever the state and the
    event were. *)
Theorem session_change_loads_profile
        (event : string) (u : User) (row : Profile) (s : State) :
  select_fault sb = None ->
  filter (fun r => String.eqb (id r) (user_id u)) (profiles sb) = [row] ->
  user_id u <> "" ->
  let r := onAuthStateChange event (Some {| session_user := Some u |}) s in
  let final := fold_left (fun st task => state (complete sb task st))
                         (started (trace r)) (state r) in
  started (trace r) = [FetchProfile (user_id u); CheckUserRole (user_id u)]
  /\ final = {| session := Some {| session_user := Some u |};
                user := Some u;
                loading := false;
                isAdmin := String.eqb (user_type row) "admin";
                profile := Some row;
                isLoading := false |}.
Proof.
  intros Hfault Hrows Hid.
  assert (Hq : single (select_eq sb id (user_id u))
               = {| data := Some row; error := None |}).
  { unfold select_eq. rewrite Hfault, Hrows. reflexivity. }
  assert (Hne : str_empty (user_id u) = false).
  { destruct (user_id u); [now elim Hid | reflexivity]. }
  unfold onAuthStateChange.
  destruct (String.eqb event "SIGNED_OUT"); simpl;
    (split; [reflexivity |]);
    unfold fetchProfile, checkUserRole; rewrite Hne;
    unfold try_catch, bind, await; simpl; rewrite Hq; reflexivity.
Qed.

(** X25: [signOut] makes the one sign-out call and nothing else: it shows
    nothing and writes no state (the session is cleared only when the
    listener receives the event).  It rejects exactly when the call
    rejects; an error the call returns is dropped. *)
Theorem signOut_passes_through (s : State) :
  let r := signOut sb s in
  state r = s
  /\ trace r = [AuthSignOut]
  /\ (outcome r = inr tt <-> exists returned, auth_signOut sb = inr returned)
  /\ (forall e, outcome r = inl e <-> auth_signOut sb = inl e).
Proof.
  unfold signOut, bind, await; simpl.
  destruct (auth_signOut sb) as [e | returned]; simpl; repeat split;
    try (intros H; (discriminate H || congruence));
    try (intros [x H]; discriminate H); eauto.
Qed.

(** X26: on the session read at mount the provider does what the listener
    does on any event other than SIGNED_OUT. *)
Theorem onInitialSession_as_listener
        (event : string) (session0 : option Session) (s : State) :
  String.eqb event "SIGNED_OUT" = false ->
  onInitialSession session0 s = onAuthStateChange event session0 s.
Proof.
  intros Hevent. unfold onInitialSession, onAuthStateChange.
  rewrite Hevent. destruct (user_of session0); reflexivity.
Qed.
End AuthContextProfile.

(** * Examples for the properties above *)

Section RefundDialogRunExamples.
Import Js RefundDialog.
Local Open Scope string_scope.

(** On the order whose amount is not a number, typing 50 changes nothing. *)
Lemma handleAmountChange_inert_witness :
  handleAmountChange env_accepting order_nan "50" (initialState order_nan)
  = ret tt (initialState order_nan).
Proof.
  refine (@handleAmountChange_inert env_accepting order_nan
            (initialState order_nan) "50" _).
  reflexivity.
Defined.

(** The request of the scenario on order 42 is a valid one. *)
Lemma session_requests_valid_witness :
  req_orderId request_fifty = orderId (orderDetails order42)
  /\ amount_in_range (amount (orderDetails order42))
       (req_amount request_fifty) = true
  /\ trim (req_reason request_fifty) <> "".
Proof.
  refine (@session_requests_valid env_accepting order42
            [TypeAmount "50"; TypeReason "damaged item"; ClickConfirm]
            request_fifty _ _).
  - reflexivity.
  - vm_compute. left. reflexivity.
Defined.

(** On the order of amount zero nothing the user does sends a request. *)
Lemma nonpositive_order_never_refunded_witness :
  refund_calls
    (snd (session env_accepting order_zero
            [TypeAmount "50"; TypeReason "damaged item"; ClickConfirm]
            (initialState order_zero))) = [].
Proof.
  refine (@nonpositive_order_never_refunded env_accepting order_zero
            [TypeAmount "50"; TypeReason "damaged item"; ClickConfirm] _).
  reflexivity.
Defined.
End RefundDialogRunExamples.

Section CountrySearchExamples.
Import Js CountrySelector.
Local Open Scope string_scope.

Lemma filteredCountries_case_blind_witness :
  filteredCountries toLowerCaseAscii sample_countries "EG"
  = filteredCountries toLowerCaseAscii sample_countries "eg".
Proof.
  refine (@filteredCountries_case_blind toLowerCaseAscii sample_countries
            "EG" "eg" _ _).
  - reflexivity.
  - reflexivity.
Defined.

Lemma filteredCountries_finds_entry_witness :
  In egypt (filteredCountries toLowerCaseAscii sample_countries "EGYPT").
Proof.
  refine (@filteredCountries_finds_entry toLowerCaseAscii sample_countries
            egypt "EGYPT" _ _).
  - left. reflexivity.
  - left. reflexivity.
Defined.

(** The sample list has four entries: all of them are favourites. *)
Lemma favoriteCountries_head_witness :
  favoriteCountries sample_countries = sample_countries.
Proof.
  refine (proj2 (proj2 (favoriteCountries_head sample_countries)) _).
  apply Nat.leb_le. reflexivity.
Defined.

Lemma selectableCodes_in_list_witness :
  exists c, In c sample_countries /\ code c = "KW".
Proof.
  refine (@selectableCodes_in_list toLowerCaseAscii (fun key => key)
            sample_countries "kuw" "KW" _).
  vm_compute. do 3 right. left. reflexivity.
Defined.

(** The menu is closed, opened again, "eg" is typed, and the timer of the
    close fires. *)
Lemma menu_close_timer_clears_query_witness :
  countrySearchQuery
    (state (fire (ResetSearch false)
              (state (handleSearchInputChange "eg" initialState)))) = "".
Proof.
  refine (proj1 (proj2
    (proj2 (@menu_close_timer_clears_query toLowerCaseAscii true initialState
              initialState sample_countries "eg")
       (ResetSearch false) 300 _))).
  left. reflexivity.
Defined.

(** The menu is opened before the input is held: the timer focuses
    nothing. *)
Lemma menu_open_timer_focuses_witness :
  trace (fire (FocusInput false) initialState) = [].
Proof.
  refine (proj2
    (proj2 (proj2 (@menu_open_timer_focuses true initialState initialState))
       (FocusInput false) 400 _)).
  left. reflexivity.
Defined.
End CountrySearchExamples.

Section AuthContextRunExamples.
Import Js AuthContext.
Local Open Scope string_scope.

(** Bob signs up on the healthy backend: his row is a plain user's. *)
Lemma signUp_inserts_plain_user_row_witness :
  user_type (new_profile sb_healthy {| user_id := "u2" |}
               "bob@example.com" None) = "user".
Proof.
  refine (proj1
    (@signUp_inserts_plain_user_row sb_healthy "bob@example.com" "secret"
       None initialState
       (new_profile sb_healthy {| user_id := "u2" |} "bob@example.com" None)
       _)).
  vm_compute. do 2 right. left. reflexivity.
Defined.

(** Bob signs up where rows cannot be written: the identity deleted is
    the one just created. *)
Lemma signUp_deletes_only_own_identity_witness :
  exists created u pe,
    auth_signUp sb_insert_denied "bob@example.com" "secret" None
    = inr (created, None)
    /\ data_user created = Some u
    /\ "u2" = user_id u
    /\ insert_profile sb_insert_denied
         (new_profile sb_insert_denied u "bob@example.com" None) = Some pe.
Proof.
  refine (@signUp_deletes_only_own_identity sb_insert_denied
            "bob@example.com" "secret" None initialState "u2" _).
  vm_compute. do 4 right. left. reflexivity.
Defined.

Lemma signUp_success_witness :
  outcome (signUp sb_healthy "bob@example.com" "secret" None initialState)
  = inr {| result_error := None;
           result_data := Some {| data_user := Some {| user_id := "u2" |} |} |}.
Proof.
  rewrite (@signUp_success sb_healthy "bob@example.com" "secret" None
             initialState {| data_user := Some {| user_id := "u2" |} |}
             {| user_id := "u2" |} eq_refl eq_refl eq_refl eq_refl).
  reflexivity.
Defined.

Lemma signUp_without_user_skips_profile_witness :
  existsb is_profile_insert
    (trace (signUp sb_no_user "bob@example.com" "secret" None initialState))
  = false.
Proof.
  refine (proj1 (proj2
    (@signUp_without_user_skips_profile sb_no_user "bob@example.com" "secret"
       None initialState {| data_user := None |} _ _ _)));
    reflexivity.
Defined.

(** Alice's profile is fetched on the healthy backend. *)
Lemma fetchProfile_sets_or_keeps_witness :
  profile (state (fetchProfile sb_healthy "u1" initialState))
  = Some row_alice.
Proof.
  rewrite (proj1 (proj2 (fetchProfile_sets_or_keeps sb_healthy "u1"
                           initialState))
             row_alice eq_refl eq_refl).
  reflexivity.
Defined.

(** Alice's role is checked on the healthy backend: her row is a plain
    user's, so the admin flag of the state is lowered. *)
Lemma checkUserRole_sets_or_keeps_witness :
  isAdmin (state (checkUserRole sb_healthy "u1" state_alice)) = false.
Proof.
  assert (Hne : "u1" <> "") by discriminate.
  rewrite (proj1 (proj2 (proj2 (checkUserRole_sets_or_keeps sb_healthy "u1"
                                  state_alice)))
             row_alice Hne eq_refl eq_refl).
  reflexivity.
Defined.

(** A refresh before anyone has signed in. *)
Lemma refreshProfile_touches_profile_only_witness :
  trace (refreshProfile sb_healthy initialState initialState) = [].
Proof.
  refine (proj2
    (proj2 (proj2 (proj2 (proj2 (proj2 (proj2
      (refreshProfile_touches_profile_only sb_healthy initialState))))))
       _)).
  reflexivity.
Defined.

(** A token refresh that comes without a session: Alice's profile
    stays. *)
Lemma onAuthStateChange_keeps_profile_witness :
  profile (state (onAuthStateChange "TOKEN_REFRESHED" None state_alice))
  = Some row_alice.
Proof.
  refine (proj1
    (@onAuthStateChange_keeps_profile "TOKEN_REFRESHED" None state_alice _)).
  reflexivity.
Defined.

(** Alice signs in on the healthy backend. *)
Lemma session_change_loads_profile_witness :
  started
    (trace (onAuthStateChange "SIGNED_IN"
              (Some {| session_user := Some {| user_id := "u1" |} |})
              initialState))
  = [FetchProfile "u1"; CheckUserRole "u1"].
Proof.
  refine (proj1
    (@session_change_loads_profile sb_healthy "SIGNED_IN"
       {| user_id := "u1" |} row_alice initialState _ _ _)).
  - reflexivity.
  - reflexivity.
  - discriminate.
Defined.

Lemma onInitialSession_as_listener_witness :
  onInitialSession None state_alice
  = onAuthStateChange "INITIAL_SESSION" None state_alice.
Proof.
  refine (@onInitialSession_as_listener "INITIAL_SESSION" None state_alice _).
  reflexivity.
Defined.
End AuthContextRunExamples.
